(** * Student portal: scoring, dashboard status and login sequence

    A shallow embedding of the local logic of the student application:
    - [ExamRoom]: [handleSelectOption], [calculateScore] and the question
      flattening of [initExam] (components/StudentExamRoom.tsx);
    - [Dashboard]: [getTestStatus] and the four status lists of the
      student dashboard;
    - [App]: [fetchRole] and [handleLoginSuccess] of the application shell;
    - [ExamFlow]: navigation between questions, the progress value and
      [handleSubmit] of the exam room;
    - [DashboardData]: [getTimeUntil], [fetchData] and the screen choice of
      the dashboard;
    - [Shell]: [extractRoleFromAppUser], the role queries, the auth
      listener, the periodic session check, [initAuth] and the screen
      choice of the application shell;
    - [Layout]: the views of the student layout.

    JavaScript values are modelled as the code uses them: [undefined] and
    [null] as [None], Numbers that hold counts as [Z], the one Number that
    goes through a division as an IEEE 754 binary64 value ([spec_float]),
    the [answers] object as a finite map from question id to option id,
    arrays as lists. *)

From Stdlib Require Import ZArith Bool SpecFloat Lia Sorted.
From stdpp Require Import gmap strings list pretty.

Open Scope Z_scope.

(** ** JavaScript helpers *)

Module JS.

(** Binary64 arithmetic, from the Standard Library's specification of
    IEEE 754 (round to nearest, ties to even). *)
Definition prec : Z := 53.
Definition emax : Z := 1024.

Definition Number : Type := spec_float.

(** An integer literal or an integer-valued variable read as a Number
    (exact below 2^53). *)
Definition of_Z (n : Z) : Number := binary_normalize prec emax n 0 false.

Definition div : Number -> Number -> Number := SFdiv prec emax.
Definition mul : Number -> Number -> Number := SFmul prec emax.

(** floor(x + 1/2) of the finite value (-1)^s * m * 2^e, computed
    exactly on integers. *)
Definition floor_plus_half (s : bool) (m : positive) (e : Z) : Z :=
  let v := if s then Z.neg m else Z.pos m in
  if 0 <=? e then v * 2 ^ e
  else (2 * v + 2 ^ (- e)) / 2 ^ (1 - e).

(** [Math.round]: the closest integer, ties towards +infinity; NaN,
    infinities and zeros are returned unchanged, and a negative input
    that rounds to zero gives -0. *)
Definition Math_round (x : Number) : Number :=
  match x with
  | S754_finite s m e => binary_normalize prec emax (floor_plus_half s m e) 0 s
  | _ => x
  end.

(** [x || d] on a possibly missing string: null, undefined and the empty
    string are falsy. *)
Definition or_string (x : option string) (d : string) : string :=
  match x with
  | Some s => if bool_decide (s = "") then d else s
  | None => d
  end.

(** [x || null] on a possibly missing string. *)
Definition or_null (x : option string) : option string :=
  match x with
  | Some s => if bool_decide (s = "") then None else Some s
  | None => None
  end.

(** [x != null]. *)
Definition not_nullish {A} (x : option A) : bool :=
  match x with Some _ => true | None => false end.

(** [x === y] on values that are a string or undefined. *)
Definition strict_eq (x y : option string) : bool := bool_decide (x = y).

(** [a - b] on Numbers that are integers or undefined: undefined
    converts to NaN, written [None]. *)
Definition minus (a b : option Z) : option Z :=
  match a, b with
  | Some x, Some y => Some (x - y)
  | _, _ => None
  end.

(** [a < b] and [a > b] on time values; false when one side is NaN. *)
Definition lt (a b : option Z) : bool :=
  match a, b with
  | Some x, Some y => x <? y
  | _, _ => false
  end.

Definition gt (a b : option Z) : bool := lt b a.

(** [Array.prototype.sort] with a comparator. The comparator's result
    is read as the language prescribes: NaN counts as +0, and only a
    positive result puts the second argument first. The sort is stable,
    modelled by insertion from the right. *)
Definition goes_after (v : option Z) : bool :=
  match v with
  | Some z => 0 <? z
  | None => false
  end.

Fixpoint sort_insert {A} (cmp : A -> A -> option Z) (x : A) (l : list A) : list A :=
  match l with
  | [] => [x]
  | y :: ys => if goes_after (cmp x y) then y :: sort_insert cmp x ys
               else x :: y :: ys
  end.

Definition sort {A} (cmp : A -> A -> option Z) (l : list A) : list A :=
  foldr (sort_insert cmp) [] l.

(** [Array.prototype.some]. *)
Definition some {A} (p : A -> bool) (l : list A) : bool := existsb p l.

(** A call that returns a value or throws. *)
Inductive outcome (A : Type) : Type :=
| Returned (a : A)
| Thrown.
Arguments Returned {A} a.
Arguments Thrown {A}.

(** [Array.prototype.map] with a callback that may throw: the first
    exception aborts the traversal. *)
Fixpoint map_throwing {A B} (f : A -> outcome B) (l : list A) : outcome (list B) :=
  match l with
  | [] => Returned []
  | x :: xs =>
      match f x with
      | Thrown => Thrown
      | Returned y =>
          match map_throwing f xs with
          | Thrown => Thrown
          | Returned ys => Returned (y :: ys)
          end
      end
  end.

End JS.

(** ** The exam room *)

Module ExamRoom.

(** question_options(id, content, key, is_correct) *)
Record QuestionOption : Type := {
  o_id : string;
  o_content : string;
  o_key : option string;
  o_is_correct : bool
}.

(** A question as held in [test.questions]. [q_order_index] is what the
    property read [q.order_index] gives: [None] when the object has no
    such property. *)
Record Question : Type := {
  q_id : string;
  q_content : string;
  q_difficulty : option string;
  q_image_url : option string;
  q_deleted : bool;
  q_weight : Z;
  q_order_index : option Z;
  question_options : option (list QuestionOption)
}.

Record Test : Type := {
  t_id : string;
  t_title : string;
  questions : option (list Question)
}.

Record Student : Type := {
  s_id : string;
  s_name : string;
  s_student_hash : option string
}.

(** The component's state: one field per [useState]. *)
Record State : Type := {
  test : option Test;
  student : option Student;
  loading : bool;
  submitting : bool;
  answers : gmap string string;
  currentQIndex : Z
}.

Definition set_answers (f : gmap string string -> gmap string string) (st : State) : State :=
  {| test := test st; student := student st; loading := loading st;
     submitting := submitting st; answers := f (answers st);
     currentQIndex := currentQIndex st |}.

(** setAnswers(prev => ({ ...prev, [questionId]: optionId })) *)
Definition handleSelectOption (questionId optionId : string) (st : State) : State :=
  set_answers (fun prev => <[questionId := optionId]> prev) st.

(** *** calculateScore *)

Record GradedAnswer : Type := {
  number : Z;
  questionId : string;
  questionContent : string;
  selectedOption : string;
  selectedOptionId : option string;
  correctOption : string;
  correctOptionId : option string;
  isCorrect : bool
}.

Record ScoreResult : Type := {
  score : JS.Number;
  correctCount : Z;
  errorCount : Z;
  gradedAnswers : list GradedAnswer
}.

(** What the run touches, in order: a callback invocation on the
    question at an index, or a predicate call of [find] on an option. *)
Inductive Event : Type :=
| Visit (idx : nat) (qid : string)
| Probe (oid : string).

(** The mutable [let correctCount] captured by the callback, together
    with the record of what has been touched. *)
Record Frame : Type := {
  f_correctCount : Z;
  f_events : list Event
}.

Definition Run (A : Type) : Type := Frame -> A * Frame.

#[export] Instance Run_ret : MRet Run := fun A a fr => (a, fr).
#[export] Instance Run_bind : MBind Run := fun A B k m fr =>
  let '(a, fr') := m fr in k a fr'.

Definition emit (e : Event) : Run unit := fun fr =>
  (tt, {| f_correctCount := f_correctCount fr; f_events := f_events fr ++ [e] |}).

(** correctCount++ *)
Definition incrCorrectCount : Run unit := fun fr =>
  (tt, {| f_correctCount := f_correctCount fr + 1; f_events := f_events fr |}).

(** [Array.prototype.find]: the first element the predicate accepts;
    the predicate is not called past it. *)
Fixpoint find (p : QuestionOption -> bool) (l : list QuestionOption) : Run (option QuestionOption) :=
  match l with
  | [] => mret None
  | o :: os =>
      _ ← emit (Probe (o_id o));
      if p o then mret (Some o) else find p os
  end.

(** [arr?.find(p)] *)
Definition find_opt (p : QuestionOption -> bool) (l : option (list QuestionOption)) : Run (option QuestionOption) :=
  match l with
  | Some os => find p os
  | None => mret None
  end.

(** The callback given to [test.questions.map]. *)
Definition gradeQuestion (answers : gmap string string) (q : Question) (idx : nat) : Run GradedAnswer :=
  _ ← emit (Visit idx (q_id q));
  let selectedOptId := answers !! q_id q in
  correctOpt ← find_opt (fun o => o_is_correct o) (question_options q);
  selectedOpt ← find_opt (fun o => JS.strict_eq (Some (o_id o)) selectedOptId) (question_options q);
  let isCorrect := JS.not_nullish selectedOptId
                   && JS.strict_eq selectedOptId (o_id <$> correctOpt) in
  _ ← (if isCorrect then incrCorrectCount else mret tt);
  mret {| number := Z.of_nat idx + 1;
          questionId := q_id q;
          questionContent := q_content q;
          selectedOption := JS.or_string (selectedOpt ≫= o_key) "-";
          selectedOptionId := JS.or_null selectedOptId;
          correctOption := JS.or_string (correctOpt ≫= o_key) "?";
          correctOptionId := JS.or_null (o_id <$> correctOpt);
          isCorrect := isCorrect |}.

(** [Array.prototype.map]: the callback runs once per element, in
    ascending index order. *)
Fixpoint map_from {A B} (f : A -> nat -> Run B) (l : list A) (idx : nat) : Run (list B) :=
  match l with
  | [] => mret []
  | x :: xs =>
      y ← f x idx;
      ys ← map_from f xs (S idx);
      mret (y :: ys)
  end.

Definition map {A B} (f : A -> nat -> Run B) (l : list A) : Run (list B) :=
  map_from f l 0%nat.

Definition emptyResult : ScoreResult :=
  {| score := JS.of_Z 0; correctCount := 0; errorCount := 0; gradedAnswers := [] |}.

(** [calculateScore] with the record of what it touched. *)
Definition calculateScore_run (st : State) : ScoreResult * list Event :=
  match test st ≫= questions with
  | None => (emptyResult, [])
  | Some qs =>
      let totalQuestions := Z.of_nat (length qs) in
      let '(gradedAnswers, fr) :=
        map (gradeQuestion (answers st)) qs {| f_correctCount := 0; f_events := [] |} in
      let correctCount := f_correctCount fr in
      let errorCount := totalQuestions - correctCount in
      let score :=
        if 0 <? totalQuestions
        then JS.Math_round (JS.mul (JS.div (JS.of_Z correctCount) (JS.of_Z totalQuestions)) (JS.of_Z 100))
        else JS.of_Z 0 in
      ({| score := score; correctCount := correctCount;
          errorCount := errorCount; gradedAnswers := gradedAnswers |},
       f_events fr)
  end.

Definition calculateScore (st : State) : ScoreResult := fst (calculateScore_run st).

(** The rows sent by handleSubmit to student_test_answers, without the
    result id given by the backend. *)
Record AnswerRow : Type := {
  question_id : string;
  selected_option_id : option string;
  is_correct : bool
}.

Definition answerPayload (r : ScoreResult) : list AnswerRow :=
  List.map (fun ans => {| question_id := questionId ans;
                          selected_option_id := selectedOptionId ans;
                          is_correct := isCorrect ans |}) (gradedAnswers r).

(** *** initExam *)

(** questions(id, content, difficulty, image_url, deleted,
    question_options(...)) as the backend returns it. *)
Record QuestionRow : Type := {
  qr_id : string;
  qr_content : string;
  qr_difficulty : option string;
  qr_image_url : option string;
  qr_deleted : bool;
  qr_question_options : list QuestionOption
}.

(** test_questions(weight, order_index, questions(...)); the embedded
    question is null when the backend does not return it. *)
Record TestQuestionRow : Type := {
  tq_weight : Z;
  tq_order_index : Z;
  tq_questions : option QuestionRow
}.

Record TestRow : Type := {
  row_id : string;
  row_title : string;
  test_questions : option (list TestQuestionRow)
}.

Section InitExam.

(** [String.prototype.localeCompare] of the host. *)
Variable localeCompare : string -> string -> Z.

Definition compareKeys (a b : QuestionOption) : option Z :=
  Some (localeCompare (JS.or_string (o_key a) "") (JS.or_string (o_key b) "")).

(** The object literal [{ ...tq.questions, weight, question_options }].
    Reading [tq.questions.question_options] throws when [tq.questions]
    is null. The literal gets the properties of the embedded question,
    [weight] and [question_options]: it has no [order_index]. *)
Definition flatten (tq : TestQuestionRow) : JS.outcome Question :=
  match tq_questions tq with
  | None => JS.Thrown
  | Some qr =>
      JS.Returned
        {| q_id := qr_id qr;
           q_content := qr_content qr;
           q_difficulty := qr_difficulty qr;
           q_image_url := qr_image_url qr;
           q_deleted := qr_deleted qr;
           q_weight := tq_weight tq;
           q_order_index := None;
           question_options := Some (JS.sort compareKeys (qr_question_options qr)) |}
  end.

Definition compareOrderIndex (a b : Question) : option Z :=
  JS.minus (q_order_index a) (q_order_index b).

(** testData.test_questions?.map(...).filter(q => !q.deleted)
      .sort((a, b) => a.order_index - b.order_index) *)
Definition loadQuestions (tqs : option (list TestQuestionRow)) : JS.outcome (option (list Question)) :=
  match tqs with
  | None => JS.Returned None
  | Some rows =>
      match JS.map_throwing flatten rows with
      | JS.Thrown => JS.Thrown
      | JS.Returned flat =>
          JS.Returned
            (Some (JS.sort compareOrderIndex (List.filter (fun q => negb (q_deleted q)) flat)))
      end
  end.

(** What the backend answers to the two queries of initExam. *)
Record Responses : Type := {
  stuData : option Student;
  testData : option TestRow;
  testError : bool
}.

Inductive UiEffect : Type :=
| Alert (msg : string)
| OnExit.

Definition set_loading (b : bool) (st : State) : State :=
  {| test := test st; student := student st; loading := b;
     submitting := submitting st; answers := answers st;
     currentQIndex := currentQIndex st |}.

Definition loadFailed (st : State) : State * list UiEffect :=
  (set_loading false st,
   [Alert "Erro ao carregar dados da prova. Por favor, contate o aplicador."; OnExit]).

(** [initExam]: without a client nothing happens; any exception ends
    in the catch block; [finally] clears [loading]. *)
Definition initExam (supabase : bool) (resp : Responses) (st : State) : State * list UiEffect :=
  if negb supabase then (st, [])
  else
    match stuData resp with
    | None => loadFailed st
    | Some stu =>
        if testError resp then
          loadFailed {| test := test st; student := Some stu; loading := loading st;
                        submitting := submitting st; answers := answers st;
                        currentQIndex := currentQIndex st |}
        else
          match testData resp with
          | None =>
              loadFailed {| test := test st; student := Some stu; loading := loading st;
                            submitting := submitting st; answers := answers st;
                            currentQIndex := currentQIndex st |}
          | Some row =>
              match loadQuestions (test_questions row) with
              | JS.Thrown =>
                  loadFailed {| test := test st; student := Some stu; loading := loading st;
                                submitting := submitting st; answers := answers st;
                                currentQIndex := currentQIndex st |}
              | JS.Returned qs =>
                  ({| test := Some {| t_id := row_id row; t_title := row_title row;
                                      questions := qs |};
                      student := Some stu; loading := false;
                      submitting := submitting st; answers := answers st;
                      currentQIndex := currentQIndex st |}, [])
              end
          end
    end.

End InitExam.

End ExamRoom.

(** ** The student dashboard *)

Module Dashboard.

Record TestRelease : Type := {
  r_id : string;
  r_test_id : string;
  start_time : string;
  end_time : string
}.

Record TestResult : Type := {
  res_id : string;
  test_release_id : option string
}.

Inductive Status : Type := completed | upcoming | expired | active.

#[export] Instance Status_eq_dec : EqDecision Status.
Proof. solve_decision. Defined.

Section Render.

(** The time value of [new Date(s)]: milliseconds since the epoch, or
    [None] (NaN) for an invalid date. *)
Variable parseDate : string -> option Z.

(** The body of [getTestStatus] once [new Date()] has been read as
    [now]. *)
Definition statusAt (results : list TestResult) (now : Z) (r : TestRelease) : Status :=
  let start := parseDate (start_time r) in
  let end_ := parseDate (end_time r) in
  let resultExists :=
    JS.some (fun res => JS.strict_eq (test_release_id res) (Some (r_id r))) results in
  if resultExists then completed
  else if JS.lt (Some now) start then upcoming
  else if JS.gt (Some now) end_ then expired
  else active.

(** Every call of [getTestStatus] reads the clock. [clock k] is the
    k-th reading of a render; a computation takes the number of
    readings made so far and returns it updated. *)
Variable clock : nat -> Z.

Definition Timed (A : Type) : Type := nat -> A * nat.

Definition getTestStatus (results : list TestResult) (r : TestRelease) : Timed Status :=
  fun k => (statusAt results (clock k) r, S k).

(** releases.filter(r => getTestStatus(r) === s) *)
Fixpoint filterStatus (results : list TestResult) (s : Status) (l : list TestRelease) : Timed (list TestRelease) :=
  fun k =>
    match l with
    | [] => ([], k)
    | r :: rs =>
        let '(st, k1) := getTestStatus results r k in
        let '(rest, k2) := filterStatus results s rs k1 in
        (if bool_decide (st = s) then r :: rest else rest, k2)
    end.

Definition compareStart (a b : TestRelease) : option Z :=
  JS.minus (parseDate (start_time a)) (parseDate (start_time b)).

Record Lists : Type := {
  activeTests : list TestRelease;
  upcomingTests : list TestRelease;
  completedTests : list TestRelease;
  expiredTests : list TestRelease
}.

(** The four lists of a render, computed in the order of the source. *)
Definition statusLists (releases : list TestRelease) (results : list TestResult) : Lists :=
  let '(act, k1) := filterStatus results active releases 0%nat in
  let '(upc, k2) := filterStatus results upcoming releases k1 in
  let '(com, k3) := filterStatus results completed releases k2 in
  let '(exp, _) := filterStatus results expired releases k3 in
  {| activeTests := act;
     upcomingTests := JS.sort compareStart upc;
     completedTests := com;
     expiredTests := exp |}.

End Render.

End Dashboard.

(** ** The application shell *)

Module App.

Record User : Type := { u_id : string }.

Record Session : Type := { s_user : option User }.

(** How a call of [client.auth.getSession()] settles. *)
Inductive SessionReply : Type :=
| Resolves (s : option Session)
| Rejects.

(** What the two app_users queries of [fetchRole] give: no usable row,
    a row whose relation yields a rule name or null, or an exception. *)
Inductive Profile : Type :=
| NoProfile
| ProfileRow (rule_name : option string)
| QueryThrows.

(** When the promise of [fetchRole] settles, seen from
    handleLoginSuccess: before the 5000 ms timer, during the last 300 ms
    wait, or after the function has returned. *)
Inductive Settles : Type := BeforeTimeout | DuringLastWait | AfterReturn.

(** The environment of one run. [getSession k] answers the k-th call. *)
Record World : Type := {
  client : bool;
  getSession : nat -> SessionReply;
  profile : Profile;
  settles : Settles
}.

Record State : Type := {
  session : option Session;
  userRole : string;
  authLoading : bool;
  loadingMessage : string;
  loginProcessingRef : bool;
  profileResolvedRef : bool
}.

Inductive Effect : Type :=
| Wait (ms : Z)
| CallGetSession
| StartFetchRole (uid : string)
| StartTimer (ms : Z)
| AwaitRace.

(** The state of a run: the component state, the number of getSession
    calls made so far, and the effects performed so far. *)
Record Machine : Type := {
  app : State;
  calls : nat;
  effects : list Effect
}.

Definition Proc (A : Type) : Type := Machine -> JS.outcome A * Machine.

#[export] Instance Proc_ret : MRet Proc := fun A a m => (JS.Returned a, m).
#[export] Instance Proc_bind : MBind Proc := fun A B k p m =>
  match p m with
  | (JS.Returned a, m') => k a m'
  | (JS.Thrown, m') => (JS.Thrown, m')
  end.

(** try { body } catch { handler } *)
Definition try_catch {A} (body handler : Proc A) : Proc A := fun m =>
  match body m with
  | (JS.Returned a, m') => (JS.Returned a, m')
  | (JS.Thrown, m') => handler m'
  end.

Definition perform (e : Effect) : Proc unit := fun m =>
  (JS.Returned tt, {| app := app m; calls := calls m; effects := effects m ++ [e] |}).

Definition update (f : State -> State) : Proc unit := fun m =>
  (JS.Returned tt, {| app := f (app m); calls := calls m; effects := effects m |}).

Definition setSession (s : option Session) (st : State) : State :=
  {| session := s; userRole := userRole st; authLoading := authLoading st;
     loadingMessage := loadingMessage st;
     loginProcessingRef := loginProcessingRef st;
     profileResolvedRef := profileResolvedRef st |}.

Definition setUserRole (r : string) (st : State) : State :=
  {| session := session st; userRole := r; authLoading := authLoading st;
     loadingMessage := loadingMessage st;
     loginProcessingRef := loginProcessingRef st;
     profileResolvedRef := profileResolvedRef st |}.

Definition setAuthLoading (b : bool) (st : State) : State :=
  {| session := session st; userRole := userRole st; authLoading := b;
     loadingMessage := loadingMessage st;
     loginProcessingRef := loginProcessingRef st;
     profileResolvedRef := profileResolvedRef st |}.

Definition setLoadingMessage (msg : string) (st : State) : State :=
  {| session := session st; userRole := userRole st; authLoading := authLoading st;
     loadingMessage := msg;
     loginProcessingRef := loginProcessingRef st;
     profileResolvedRef := profileResolvedRef st |}.

Definition setLoginProcessing (b : bool) (st : State) : State :=
  {| session := session st; userRole := userRole st; authLoading := authLoading st;
     loadingMessage := loadingMessage st;
     loginProcessingRef := b;
     profileResolvedRef := profileResolvedRef st |}.

Definition setProfileResolved (b : bool) (st : State) : State :=
  {| session := session st; userRole := userRole st; authLoading := authLoading st;
     loadingMessage := loadingMessage st;
     loginProcessingRef := loginProcessingRef st;
     profileResolvedRef := b |}.

(** The state changes of [fetchRole] with a client: none when the row
    is missing or a query throws (the exception is caught inside);
    otherwise the rule name, or 'Student' when it is null or empty, and
    the profile counts as resolved. *)
Definition fetchRole (p : Profile) (st : State) : State :=
  match p with
  | NoProfile | QueryThrows => st
  | ProfileRow rule =>
      setProfileResolved true (setUserRole (JS.or_string rule "Student") st)
  end.

(** await client.auth.getSession(), with the destructuring of its
    result. *)
Definition callGetSession (w : World) : Proc (option Session) := fun m =>
  let m' := {| app := app m; calls := S (calls m);
               effects := effects m ++ [CallGetSession] |} in
  match getSession w (calls m) with
  | Resolves s => (JS.Returned s, m')
  | Rejects => (JS.Thrown, m')
  end.

(** session?.user *)
Definition sessionUser (s : option Session) : option User := s ≫= s_user.

(** The body of [for (let i = 0; i < 3; i++)], for the iterations that
    remain. *)
Fixpoint pollSession (w : World) (remaining : nat) : Proc (option Session) :=
  match remaining with
  | O => mret None
  | S n =>
      s ← callGetSession w;
      match sessionUser s with
      | Some _ => mret s
      | None => _ ← perform (Wait 300); pollSession w n
      end
  end.

Definition finish : Proc unit :=
  _ ← update (setAuthLoading false);
  update (setLoginProcessing false).

(** The branch taken once a session with a user is at hand. *)
Definition resolveProfile (w : World) (s : Session) (u : User) : Proc unit :=
  _ ← update (setSession (Some s));
  _ ← update (setLoadingMessage "Carregando Perfil...");
  _ ← perform (StartFetchRole (u_id u));
  _ ← perform (StartTimer 5000);
  _ ← perform AwaitRace;
  _ ← (match settles w with
       | BeforeTimeout => update (fetchRole (profile w))
       | _ => mret tt
       end);
  _ ← update (setLoadingMessage "Preparando Ambiente...");
  _ ← perform (Wait 300);
  _ ← (match settles w with
       | DuringLastWait => update (fetchRole (profile w))
       | _ => mret tt
       end);
  finish.

Definition handleLoginSuccess_proc (w : World) : Proc unit := fun m =>
  if loginProcessingRef (app m) then (JS.Returned tt, m)
  else
    (_ ← update (setLoginProcessing true);
     _ ← update (setAuthLoading true);
     _ ← update (setLoadingMessage "Verificando Credenciais...");
     if client w then
       try_catch
         (_ ← perform (Wait 500);
          currentSession ← pollSession w 3;
          match currentSession, sessionUser currentSession with
          | Some s, Some u => resolveProfile w s u
          | _, _ => finish
          end)
         finish
     else finish) m.

Definition handleLoginSuccess (w : World) (st : State) : State * list Effect :=
  let '(_, m) := handleLoginSuccess_proc w {| app := st; calls := 0; effects := [] |} in
  (app m, effects m).

End App.

(** ** Reference definitions for the exam room

    What [calculateScore] is compared with: the grading of one question as
    a plain function, the rule that makes an answer count, and the events
    one question accounts for. *)

Module ExamRoomSpec.
Import ExamRoom.

Definition optionsOf (q : Question) : list QuestionOption :=
  default [] (question_options q).

(** [o] is the option of [q] marked is_correct: it is marked, and no
    option listed before it is. *)
Definition markedCorrect (q : Question) (o : QuestionOption) : Prop :=
  exists before after,
    optionsOf q = before ++ o :: after
    /\ o_is_correct o = true
    /\ Forall (fun o' => o_is_correct o' = false) before.

(** The selected option id is non-null and is the id of the option
    marked is_correct. *)
Definition selectedCorrectly (answers : gmap string string) (q : Question) : Prop :=
  exists sel o, answers !! q_id q = Some sel /\ markedCorrect q o /\ sel = o_id o.

Definition countsAsCorrect (answers : gmap string string) (q : Question) : bool :=
  match answers !! q_id q, List.find o_is_correct (optionsOf q) with
  | Some sel, Some o => bool_decide (sel = o_id o)
  | _, _ => false
  end.

(** Math.round((correctCount / totalQuestions) * 100) *)
Definition percentage (correct total : Z) : JS.Number :=
  JS.Math_round (JS.mul (JS.div (JS.of_Z correct) (JS.of_Z total)) (JS.of_Z 100)).

(** The length of the loaded question list; 0 while no list is loaded. *)
Definition totalQuestions (st : State) : Z :=
  match test st ≫= questions with
  | Some qs => Z.of_nat (length qs)
  | None => 0
  end.

(** The graded answer of one question, without the counter. *)
Definition grade (answers : gmap string string) (q : Question) (idx : nat) : GradedAnswer :=
  let selectedOptId := answers !! q_id q in
  let correctOpt := List.find o_is_correct (optionsOf q) in
  let selectedOpt :=
    List.find (fun o => JS.strict_eq (Some (o_id o)) selectedOptId) (optionsOf q) in
  {| number := Z.of_nat idx + 1;
     questionId := q_id q;
     questionContent := q_content q;
     selectedOption := JS.or_string (selectedOpt ≫= o_key) "-";
     selectedOptionId := JS.or_null selectedOptId;
     correctOption := JS.or_string (correctOpt ≫= o_key) "?";
     correctOptionId := JS.or_null (o_id <$> correctOpt);
     isCorrect := JS.not_nullish selectedOptId
                  && JS.strict_eq selectedOptId (o_id <$> correctOpt) |}.

Fixpoint gradeFrom (answers : gmap string string) (qs : list Question) (idx : nat) : list GradedAnswer :=
  match qs with
  | [] => []
  | q :: rest => grade answers q idx :: gradeFrom answers rest (S idx)
  end.

(** The options on which a [find] calls its predicate: up to and
    including the first accepted one. *)
Fixpoint probed (p : QuestionOption -> bool) (l : list QuestionOption) : list QuestionOption :=
  match l with
  | [] => []
  | o :: os => o :: (if p o then [] else probed p os)
  end.

Definition probesOf (answers : gmap string string) (q : Question) : list Event :=
  List.map (fun o => Probe (o_id o)) (probed o_is_correct (optionsOf q))
  ++ List.map (fun o => Probe (o_id o))
       (probed (fun o => JS.strict_eq (Some (o_id o)) (answers !! q_id q)) (optionsOf q)).

Definition eventsOf (answers : gmap string string) (q : Question) (idx : nat) : list Event :=
  Visit idx (q_id q) :: probesOf answers q.

Fixpoint eventsFrom (answers : gmap string string) (qs : list Question) (idx : nat) : list (list Event) :=
  match qs with
  | [] => []
  | q :: rest => eventsOf answers q idx :: eventsFrom answers rest (S idx)
  end.

Definition countTrue (l : list GradedAnswer) : Z :=
  Z.of_nat (length (List.filter isCorrect l)).

Definition countFalse (l : list GradedAnswer) : Z :=
  Z.of_nat (length (List.filter (fun g => negb (isCorrect g)) l)).

End ExamRoomSpec.

(** ** Reference definitions for the dashboard and the login sequence *)

Module DashboardSpec.
Import Dashboard.

(** Some fetched result has test_release_id equal to the release's id. *)
Definition hasResult (results : list TestResult) (r : TestRelease) : Prop :=
  exists res, res ∈ results /\ test_release_id res = Some (r_id r).

(** [now < t] and [now > t] for a parsed date [t]; neither holds when
    [t] is an invalid date. *)
Definition nowBefore (now : Z) (t : option Z) : Prop :=
  exists v, t = Some v /\ now < v.

Definition nowAfter (now : Z) (t : option Z) : Prop :=
  exists v, t = Some v /\ v < now.

(** The list of the dashboard that shows a status. *)
Definition listOf (l : Lists) (s : Status) : list TestRelease :=
  match s with
  | active => activeTests l
  | upcoming => upcomingTests l
  | completed => completedTests l
  | expired => expiredTests l
  end.

End DashboardSpec.

Module AppSpec.
Import App.

Definition isGetSession (e : Effect) : bool :=
  match e with CallGetSession => true | _ => false end.

(** How many times a run called getSession. *)
Definition sessionCalls (effs : list Effect) : nat :=
  length (List.filter isGetSession effs).

(** The effects of the polling loop: a call of getSession or the 300 ms
    wait that follows an empty answer. *)
Definition isPollEffect (e : Effect) : Prop :=
  e = CallGetSession \/ e = Wait 300.

(** The effects of the branch that resolves the profile. *)
Definition raceEffects (uid : string) : list Effect :=
  [StartFetchRole uid; StartTimer 5000; AwaitRace; Wait 300].

End AppSpec.

(** ** Sample data *)

Module Examples.

Module Exam.
Import ExamRoom.

Definition optA : QuestionOption :=
  {| o_id := "opt-a"; o_content := "Paris"; o_key := Some "A"; o_is_correct := false |}.
Definition optB : QuestionOption :=
  {| o_id := "opt-b"; o_content := "Lisboa"; o_key := Some "B"; o_is_correct := true |}.

Definition question (id : string) : Question :=
  {| q_id := id; q_content := "Capital de Portugal?"; q_difficulty := None;
     q_image_url := None; q_deleted := false; q_weight := 1;
     q_order_index := None; question_options := Some [optA; optB] |}.

Definition sampleQuestions : list Question :=
  [question "q1"; question "q2"; question "q3"].

Definition sampleTest : Test :=
  {| t_id := "t1"; t_title := "Geografia"; questions := Some sampleQuestions |}.

(** q1 answered right, q2 answered wrong, q3 not answered. *)
Definition sampleState : State :=
  {| test := Some sampleTest; student := None; loading := false;
     submitting := false;
     answers := <["q1" := "opt-b"]> (<["q2" := "opt-a"]> ∅);
     currentQIndex := 0 |}.

(** The same test and answers seen at another moment of the session. *)
Definition sampleStateLater : State :=
  {| test := Some {| t_id := "t1"; t_title := "Geografia (2)";
                     questions := Some sampleQuestions |};
     student := Some {| s_id := "s1"; s_name := "Ana"; s_student_hash := None |};
     loading := false; submitting := true;
     answers := <["q2" := "opt-a"]> (<["q1" := "opt-b"]> ∅);
     currentQIndex := 2 |}.

Definition row (id : string) (deleted : bool) : QuestionRow :=
  {| qr_id := id; qr_content := "Capital de Portugal?"; qr_difficulty := None;
     qr_image_url := None; qr_deleted := deleted;
     qr_question_options := [optA; optB] |}.

(** Two live questions sent by the backend with the later one first,
    and a deleted one. *)
Definition sampleRows : list TestQuestionRow :=
  [ {| tq_weight := 1; tq_order_index := 2; tq_questions := Some (row "second" false) |};
    {| tq_weight := 1; tq_order_index := 3; tq_questions := Some (row "gone" true) |};
    {| tq_weight := 1; tq_order_index := 1; tq_questions := Some (row "first" false) |} ].

Definition sampleResponses : Responses :=
  {| stuData := Some {| s_id := "s1"; s_name := "Ana"; s_student_hash := None |};
     testData := Some {| row_id := "t1"; row_title := "Geografia";
                         test_questions := Some sampleRows |};
     testError := false |}.

Definition initialState : State :=
  {| test := None; student := None; loading := true; submitting := false;
     answers := ∅; currentQIndex := 0 |}.

(** A comparison of strings by their first differing character code. *)
Fixpoint compareCodes (a b : string) : Z :=
  match a, b with
  | EmptyString, EmptyString => 0
  | EmptyString, String _ _ => -1
  | String _ _, EmptyString => 1
  | String x a', String y b' =>
      let d := Z.of_nat (Ascii.nat_of_ascii x) - Z.of_nat (Ascii.nat_of_ascii y) in
      if d =? 0 then compareCodes a' b' else d
  end.

End Exam.

Module Dash.
Import Dashboard.

(** Times are written as decimal milliseconds in the samples. *)
Definition parseMillis (s : string) : option Z :=
  if bool_decide (s = "1000") then Some 1000
  else if bool_decide (s = "2000") then Some 2000
  else if bool_decide (s = "3000") then Some 3000
  else if bool_decide (s = "4000") then Some 4000
  else None.

Definition release (id start stop : string) : TestRelease :=
  {| r_id := id; r_test_id := "t1"; start_time := start; end_time := stop |}.

Definition past : TestRelease := release "r-past" "1000" "2000".
Definition current : TestRelease := release "r-now" "2000" "4000".
Definition future : TestRelease := release "r-next" "4000" "4000".
Definition done : TestRelease := release "r-done" "1000" "2000".
Definition inverted : TestRelease := release "r-inv" "4000" "2000".

Definition sampleReleases : list TestRelease := [future; current; past; done].

Definition sampleResults : list TestResult :=
  [ {| res_id := "res1"; test_release_id := Some "r-done" |} ].

Definition frozenClock (k : nat) : Z := 3000.

(** The lists of a render of the samples at the instant 3000. *)
Definition frozenLists : Lists :=
  statusLists parseMillis frozenClock sampleReleases sampleResults.

(** A clock that passes 2000 between the first and the second pass
    over the releases. *)
Definition runningClock (k : nat) : Z := if (k <? 1)%nat then 1999 else 2001.

End Dash.

Module Login.
Import App.

Definition someSession : Session := {| s_user := Some {| u_id := "uid-1" |} |}.

Definition loggedOut : State :=
  {| session := None; userRole := "Student"; authLoading := false;
     loadingMessage := ""; loginProcessingRef := false;
     profileResolvedRef := false |}.

(** A first run is still in flight: the guard is held. *)
Definition inFlight : State :=
  {| session := None; userRole := "Student"; authLoading := true;
     loadingMessage := "Verificando Credenciais..."; loginProcessingRef := true;
     profileResolvedRef := false |}.

(** The session shows up at the third call. *)
Definition slowWorld : World :=
  {| client := true;
     getSession := fun k => if (k <? 2)%nat then Resolves None else Resolves (Some someSession);
     profile := ProfileRow (Some "Student");
     settles := BeforeTimeout |}.

End Login.

End Examples.

(** ** The exam room: navigation, progress and submission *)

Module ExamFlow.
Import ExamRoom.

Definition set_currentQIndex (f : Z -> Z) (st : State) : State :=
  {| test := test st; student := student st; loading := loading st;
     submitting := submitting st; answers := answers st;
     currentQIndex := f (currentQIndex st) |}.

Definition set_submitting (b : bool) (st : State) : State :=
  {| test := test st; student := student st; loading := loading st;
     submitting := b; answers := answers st;
     currentQIndex := currentQIndex st |}.

(** test.questions ? test.questions[currentQIndex] : null; an index
    outside the array reads undefined. *)
Definition currentQuestion (st : State) : option Question :=
  match test st ≫= questions with
  | Some qs =>
      if currentQIndex st <? 0 then None else qs !! Z.to_nat (currentQIndex st)
  | None => None
  end.

(** The left button is disabled at the first question; otherwise it runs
    setCurrentQIndex(prev => Math.max(0, prev - 1)). *)
Definition clickPrevious (st : State) : State :=
  if currentQIndex st =? 0 then st
  else set_currentQIndex (fun prev => Z.max 0 (prev - 1)) st.

(** The right button is the next button while
    test.questions && currentQIndex < test.questions.length - 1, and
    then runs
    setCurrentQIndex(prev => Math.min(test.questions.length - 1, prev + 1));
    otherwise the slot holds the submit button. *)
Definition nextShown (st : State) : bool :=
  match test st ≫= questions with
  | Some qs => currentQIndex st <? Z.of_nat (length qs) - 1
  | None => false
  end.

Definition clickNext (st : State) : State :=
  match test st ≫= questions with
  | Some qs =>
      if currentQIndex st <? Z.of_nat (length qs) - 1
      then set_currentQIndex (fun prev => Z.min (Z.of_nat (length qs) - 1) (prev + 1)) st
      else st
  | None => st
  end.

Inductive Click : Type := Previous | Next.

Definition click (c : Click) (st : State) : State :=
  match c with
  | Previous => clickPrevious st
  | Next => clickNext st
  end.

(** The clicks of a session, applied from the first to the last. *)
Definition clicks (cs : list Click) (st : State) : State :=
  foldl (fun acc c => click c acc) st cs.

(** test.questions?.length || 1 *)
Definition lengthOrOne (st : State) : Z :=
  match test st ≫= questions with
  | Some qs => if Z.of_nat (length qs) =? 0 then 1 else Z.of_nat (length qs)
  | None => 1
  end.

(** Math.round((Object.keys(answers).length / (test.questions?.length || 1)) * 100) *)
Definition progress (st : State) : JS.Number :=
  JS.Math_round
    (JS.mul (JS.div (JS.of_Z (Z.of_nat (size (answers st)))) (JS.of_Z (lengthOrOne st)))
            (JS.of_Z 100)).

(** *** handleSubmit *)

(** The row inserted into test_results. *)
Record ResultRow : Type := {
  rr_test_id : string;
  rr_student_id : string;
  rr_test_release_id : string;
  rr_student_name : string;
  rr_student_hash : option string;
  rr_score : JS.Number;
  rr_correct_count : Z;
  rr_error_count : Z;
  rr_correction_date : string
}.

(** The row inserted into test_attempt_logs. *)
Record AttemptLog : Type := {
  al_test_release_id : string;
  al_attempt_number : Z;
  al_start_time : string;
  al_end_time : string;
  al_preliminary_score : JS.Number
}.

(** The answer of the backend to the insert of the result row: the new
    row, of which the id is read, or an error with its message. *)
Inductive InsertReply : Type :=
| Inserted (id : string)
| InsertError (message : string).

(** What surrounds one call: the answer to window.confirm, whether a
    client exists, the k-th reading of new Date().toISOString(), and how
    the three inserts end (the second reports an error or not; the third
    is only awaited, so only a rejection is seen). *)
Record SubmitWorld : Type := {
  confirmed : bool;
  hasClient : bool;
  isoTime : nat -> string;
  insertResult : InsertReply;
  insertAnswersError : option string;
  insertLogRejects : option string
}.

Inductive AlertMsg : Type :=
| SubmitFailed (message : string)
| SubmitSent (score : JS.Number).

Inductive SubmitEffect : Type :=
| AskConfirm
| SetSubmitting (b : bool)
| InsertTestResult (row : ResultRow)
| InsertAnswers (test_result_id : string) (rows : list AnswerRow)
| InsertAttemptLog (log : AttemptLog)
| Alert (msg : AlertMsg)
| OnComplete.

(** catch (e) { alert("Falha ao enviar prova: " + e.message) } finally
    { setSubmitting(false) } *)
Definition submitFailed (message : string) : list SubmitEffect :=
  [Alert (SubmitFailed ("Falha ao enviar prova: " ++ message)); SetSubmitting false].

Definition resultRow (w : SubmitWorld) (releaseId : string) (t : Test) (stu : Student)
    (r : ScoreResult) : ResultRow :=
  {| rr_test_id := t_id t;
     rr_student_id := s_id stu;
     rr_test_release_id := releaseId;
     rr_student_name := JS.or_string (Some (s_name stu)) "Student";
     rr_student_hash := s_student_hash stu;
     rr_score := score r;
     rr_correct_count := correctCount r;
     rr_error_count := errorCount r;
     rr_correction_date := isoTime w 0%nat |}.

Definition attemptLog (w : SubmitWorld) (releaseId : string) (r : ScoreResult) : AttemptLog :=
  {| al_test_release_id := releaseId;
     al_attempt_number := 1;
     al_start_time := isoTime w 1%nat;
     al_end_time := isoTime w 2%nat;
     al_preliminary_score := score r |}.

Definition handleSubmit (w : SubmitWorld) (releaseId : string) (st : State)
    : State * list SubmitEffect :=
  if negb (confirmed w) then (st, [AskConfirm])
  else
    match test st, student st, hasClient w with
    | Some t, Some stu, true =>
        let r := calculateScore st in
        let header := resultRow w releaseId t stu r in
        let started := [AskConfirm; SetSubmitting true; InsertTestResult header] in
        (set_submitting false st,
         match insertResult w with
         | InsertError message => started ++ submitFailed message
         | Inserted resultId =>
             let sent := started ++ [InsertAnswers resultId (answerPayload r)] in
             match insertAnswersError w with
             | Some message => sent ++ submitFailed message
             | None =>
                 let logged := sent ++ [InsertAttemptLog (attemptLog w releaseId r)] in
                 match insertLogRejects w with
                 | Some message => logged ++ submitFailed message
                 | None =>
                     logged ++ [Alert (SubmitSent (score r)); OnComplete; SetSubmitting false]
                 end
             end
         end)
    | _, _, _ => (st, [AskConfirm])
    end.

End ExamFlow.

(** ** Reference definitions for the submission *)

Module ExamFlowSpec.
Import ExamRoom ExamFlow.

(** The user agreed, and a test, a student and a client are at hand. *)
Definition ready (w : SubmitWorld) (st : State) : Prop :=
  confirmed w = true /\ is_Some (test st) /\ is_Some (student st) /\ hasClient w = true.

(** An effect that reaches the backend or the parent component. *)
Definition leavesRoom (e : SubmitEffect) : Prop :=
  match e with
  | InsertTestResult _ | InsertAnswers _ _ | InsertAttemptLog _ | OnComplete => True
  | _ => False
  end.

Definition rowsCorrect (rows : list AnswerRow) : Z :=
  Z.of_nat (length (List.filter is_correct rows)).

Definition rowsWrong (rows : list AnswerRow) : Z :=
  Z.of_nat (length (List.filter (fun row => negb (is_correct row)) rows)).

End ExamFlowSpec.

(** ** Sample data for the exam flow *)

Module FlowExamples.
Import ExamRoom ExamFlow.

Definition ana : Student :=
  {| s_id := "s1"; s_name := "Ana"; s_student_hash := Some "h-1" |}.

(** The sample exam with the student loaded. *)
Definition readyState : State :=
  {| test := Some Examples.Exam.sampleTest; student := Some ana; loading := false;
     submitting := false;
     answers := <["q1" := "opt-b"]> (<["q2" := "opt-a"]> ∅);
     currentQIndex := 0 |}.

(** Every question answered with the right option. *)
Definition perfectState : State :=
  {| test := Some Examples.Exam.sampleTest; student := Some ana; loading := false;
     submitting := false;
     answers := <["q1" := "opt-b"]> (<["q2" := "opt-b"]> (<["q3" := "opt-b"]> ∅));
     currentQIndex := 2 |}.

Definition stamps (k : nat) : string := "2024-05-01T10:00:00.000Z".

Definition smoothWorld : SubmitWorld :=
  {| confirmed := true; hasClient := true; isoTime := stamps;
     insertResult := Inserted "res-9"; insertAnswersError := None;
     insertLogRejects := None |}.

End FlowExamples.

(** ** The dashboard: countdown and data fetch *)

Module DashboardData.
Import Dashboard.

(** A Number that is an integer or NaN inside a template literal. *)
Definition numberText (n : option Z) : string :=
  match n with
  | Some z => pretty z
  | None => "NaN"
  end.

(** Math.floor(a / b) for a positive integer b; NaN stays NaN. *)
Definition floorDiv (a : option Z) (b : Z) : option Z :=
  match a with
  | Some x => Some (x / b)
  | None => None
  end.

(** a % b: the remainder has the sign of a; NaN stays NaN. *)
Definition remainder (a : option Z) (b : Z) : option Z :=
  match a with
  | Some x => Some (Z.rem x b)
  | None => None
  end.

(** a <= 0 and a > 0; both false on NaN. *)
Definition le0 (a : option Z) : bool :=
  match a with
  | Some x => x <=? 0
  | None => false
  end.

Definition gt0 (a : option Z) : bool :=
  match a with
  | Some x => 0 <? x
  | None => false
  end.

Section Countdown.

Variable parseDate : string -> option Z.

(** [getTimeUntil], with [new Date()] read as [now]. *)
Definition getTimeUntil (now : Z) (dateStr : string) : option string :=
  let diff := JS.minus (parseDate dateStr) (Some now) in
  if le0 diff then None
  else
    let days := floorDiv diff (1000 * 60 * 60 * 24) in
    let hours := floorDiv (remainder diff (1000 * 60 * 60 * 24)) (1000 * 60 * 60) in
    let minutes := floorDiv (remainder diff (1000 * 60 * 60)) (1000 * 60) in
    if gt0 days then Some (numberText days ++ "d " ++ numberText hours ++ "h")%string
    else if gt0 hours then Some (numberText hours ++ "h " ++ numberText minutes ++ "m")%string
    else Some (numberText minutes ++ "m")%string.

End Countdown.

(** The component's state. *)
Record State : Type := {
  releases : list TestRelease;
  results : list TestResult;
  studentName : string;
  loading : bool
}.

Definition setLoading (b : bool) (st : State) : State :=
  {| releases := releases st; results := results st;
     studentName := studentName st; loading := b |}.

Definition setStudentName (n : string) (st : State) : State :=
  {| releases := releases st; results := results st;
     studentName := n; loading := loading st |}.

Definition setReleases (l : list TestRelease) (st : State) : State :=
  {| releases := l; results := results st;
     studentName := studentName st; loading := loading st |}.

Definition setResults (l : list TestResult) (st : State) : State :=
  {| releases := releases st; results := l;
     studentName := studentName st; loading := loading st |}.

(** How a query settles: { data, error } with error null, the same with
    an error, or a rejected promise. *)
Inductive Reply (A : Type) : Type :=
| Data (a : option A)
| Failed
| Rejected.
Arguments Data {A} a.
Arguments Failed {A}.
Arguments Rejected {A}.

(** app_users: id, first_name *)
Record AppUserRow : Type := {
  au_id : string;
  au_first_name : option string
}.

(** What surrounds one call of fetchData: the client, the user of the
    session, and the answers to the four queries (the student row is
    reduced to its id). *)
Record FetchWorld : Type := {
  supabase : bool;
  sessionUserId : option string;
  appUserReply : Reply AppUserRow;
  studentReply : Reply string;
  releasesReply : Reply (list TestRelease);
  resultsReply : Reply (list TestResult)
}.

(** (data as any) || [] of a query whose error is not looked at. *)
Definition rowsOrEmpty {A} (r : Reply (list A)) : list A :=
  match r with
  | Data (Some l) => l
  | _ => []
  end.

Definition fetchData (w : FetchWorld) (st : State) : State :=
  if negb (supabase w) then setLoading false st
  else
    match sessionUserId w with
    | None => setLoading false st
    | Some _ =>
        let st1 := setLoading true st in
        match appUserReply w with
        | Rejected | Failed | Data None => setLoading false st1
        | Data (Some appUser) =>
            match studentReply w with
            | Rejected | Failed => setLoading false st1
            | Data (Some _) =>
                let st2 := setStudentName (JS.or_string (au_first_name appUser) "Student") st1 in
                match releasesReply w, resultsReply w with
                | Rejected, _ | _, Rejected => setLoading false st2
                | rel, res =>
                    setLoading false
                      (setResults (rowsOrEmpty res) (setReleases (rowsOrEmpty rel) st2))
                end
            | Data None =>
                setLoading false
                  (setStudentName (JS.or_string (au_first_name appUser) "Usuário")
                     (setResults [] (setReleases [] st1)))
            end
        end
    end.

(** What the component renders. *)
Inductive Screen : Type := LoadingScreen | NoStudentRecord | TestLists.

(** if (loading) ...; if (!studentName || studentName === 'Usuário') ... *)
Definition screen (st : State) : Screen :=
  if loading st then LoadingScreen
  else if bool_decide (studentName st = "") || bool_decide (studentName st = "Usuário")
       then NoStudentRecord
       else TestLists.

End DashboardData.

(** ** Reference definitions and sample data for the dashboard data *)

Module DashboardDataSpec.
Import Dashboard DashboardData.

(** Both start times are valid dates and the first is not after the
    second. *)
Definition startsNoLater (parseDate : string -> option Z) (a b : TestRelease) : Prop :=
  exists x y,
    parseDate (start_time a) = Some x /\ parseDate (start_time b) = Some y /\ x <= y.

(** The text of a countdown of d days, h hours and m minutes. *)
Definition countdownText (d h m : Z) : string :=
  if 0 <? d then (pretty d ++ "d " ++ pretty h ++ "h")%string
  else if 0 <? h then (pretty h ++ "h " ++ pretty m ++ "m")%string
  else (pretty m ++ "m")%string.

Definition blank : State :=
  {| releases := []; results := []; studentName := ""; loading := true |}.

(** A signed-in user with a profile and a student row. *)
Definition studentWorld : FetchWorld :=
  {| supabase := true;
     sessionUserId := Some "uid-1";
     appUserReply := Data (Some {| au_id := "au-1"; au_first_name := Some "Ana" |});
     studentReply := Data (Some "s1");
     releasesReply := Data (Some Examples.Dash.sampleReleases);
     resultsReply := Data (Some Examples.Dash.sampleResults) |}.

(** A signed-in user with a profile and no student row. *)
Definition visitorWorld : FetchWorld :=
  {| supabase := true;
     sessionUserId := Some "uid-2";
     appUserReply := Data (Some {| au_id := "au-2"; au_first_name := Some "Rui" |});
     studentReply := Data None;
     releasesReply := Data None;
     resultsReply := Data None |}.

End DashboardDataSpec.

(** ** The application shell: role lookup, screens and auth events *)

Module Shell.
Import App.

(** A row of user_rules. *)
Record RuleRow : Type := { rule_name : option string }.

(** The value of a relation property of an app_users row: missing or
    null, an array of rows (an element may be null), one row, or a value
    that is neither an array nor an object. *)
Inductive Relation : Type :=
| NoRelation
| RelationArray (items : list (option RuleRow))
| RelationObject (row : RuleRow)
| RelationOther.

Record AppUser : Type := {
  user_rules : Relation;
  user_rule : Relation
}.

(** a ?? b *)
Definition orElse (a b : Relation) : Relation :=
  match a with
  | NoRelation => b
  | _ => a
  end.

Definition extractRoleFromAppUser (appUser : option AppUser) : option string :=
  match appUser with
  | None => None
  | Some u =>
      match orElse (user_rules u) (user_rule u) with
      | RelationArray items => (head items ≫= id) ≫= rule_name
      | RelationObject row => rule_name row
      | _ => None
      end
  end.

(** How one of the two app_users queries settles: { data, error } with
    error null, the same with an error, or a rejected promise. *)
Inductive QueryReply : Type :=
| Row (u : option AppUser)
| QueryError
| QueryRejected.

Record RoleQueries : Type := {
  single : QueryReply;
  maybeSingle : QueryReply
}.

(** What the body of fetchRole makes of the two answers; the second
    query is only sent when the first reports an error. *)
Definition profileOf (q : RoleQueries) : Profile :=
  match single q with
  | QueryRejected => QueryThrows
  | Row None => NoProfile
  | Row (Some u) => ProfileRow (extractRoleFromAppUser (Some u))
  | QueryError =>
      match maybeSingle q with
      | QueryRejected => QueryThrows
      | QueryError | Row None => NoProfile
      | Row (Some u) => ProfileRow (extractRoleFromAppUser (Some u))
      end
  end.

(** [fetchRole] from its start: without a client the role is set to
    'Student' and nothing is asked. *)
Definition fetchRoleWith (hasClient : bool) (q : RoleQueries) (st : State) : State :=
  if hasClient then fetchRole (profileOf q) st else setUserRole "Student" st.

(** The component's state: the part the login sequence works on and the
    remaining hooks. *)
Record ShellState : Type := {
  core : State;
  isConnected : bool;
  roleCheckAttempted : bool;
  signInProcessingRef : bool
}.

Definition onCore (f : State -> State) (s : ShellState) : ShellState :=
  {| core := f (core s); isConnected := isConnected s;
     roleCheckAttempted := roleCheckAttempted s;
     signInProcessingRef := signInProcessingRef s |}.

Definition setSignInProcessing (b : bool) (s : ShellState) : ShellState :=
  {| core := core s; isConnected := isConnected s;
     roleCheckAttempted := roleCheckAttempted s;
     signInProcessingRef := b |}.

Definition setRoleCheckAttempted (b : bool) (s : ShellState) : ShellState :=
  {| core := core s; isConnected := isConnected s;
     roleCheckAttempted := b;
     signInProcessingRef := signInProcessingRef s |}.

Inductive Screen : Type :=
| SetupScreen
| LoadingScreen
| LoginScreen
| AccessDenied
| ProfileError
| StudentLayout.

(** The chain of returns at the end of the component. *)
Definition render (s : ShellState) : Screen :=
  let st := core s in
  let hasSession := JS.not_nullish (session st) in
  let isStudent := bool_decide (userRole st = "Student") in
  if negb (isConnected s) then SetupScreen
  else if authLoading st then LoadingScreen
  else if isConnected s && negb hasSession then LoginScreen
  else if hasSession && negb (authLoading st) && negb isStudent then AccessDenied
  else if hasSession && negb (authLoading st) && isStudent
          && roleCheckAttempted s && negb (profileResolvedRef st)
       then ProfileError
  else StudentLayout.

(** The effect that looks at the role once more: it runs when a session
    is there, nothing is loading, the role is 'Student' and it has not
    run before; the role fetch it starts is taken as settled. *)
Definition roleRecheck (hasClient : bool) (q : RoleQueries) (s : ShellState) : ShellState :=
  let st := core s in
  if JS.not_nullish (session st) && negb (authLoading st)
     && bool_decide (userRole st = "Student") && negb (roleCheckAttempted s)
  then
    let s1 := setRoleCheckAttempted true s in
    match sessionUser (session st) with
    | Some u =>
        if bool_decide (u_id u = "") then s1
        else onCore (fetchRoleWith hasClient q) s1
    | None => s1
    end
  else s.

(** The state of a logged-out user, as the handlers set it. *)
Definition loggedOut (st : State) : State :=
  setAuthLoading false (setUserRole "Student" (setSession None st)).

Inductive AuthEvent : Type :=
| SIGNED_IN
| SIGNED_OUT
| TOKEN_REFRESHED
| PASSWORD_RECOVERY
| OTHER_EVENT.

(** What surrounds one run of the auth listener: whether the component
    is mounted when the event arrives and when the 300 ms timer of a
    sign-in fires, the session that comes with the event, the profile
    found by the role fetch and when that fetch settles (before the
    5000 ms timer, before the last timer fires, or later), and the answer
    to the getSession of a password recovery. *)
Record EventWorld : Type := {
  mounted : bool;
  mountedAtTimer : bool;
  eventSession : option Session;
  eventProfile : Profile;
  eventSettles : Settles;
  recoverySession : SessionReply
}.

Inductive ShellEffect : Type :=
| SignOut.

(** The listener given to onAuthStateChange, run to its end together
    with the timer it sets. *)
Definition onAuthStateChange (w : EventWorld) (event : AuthEvent) (s : ShellState)
    : ShellState * list ShellEffect :=
  if negb (mounted w) then (s, [])
  else
    match event with
    | SIGNED_IN =>
        if signInProcessingRef s then (s, [])
        else
          let s1 := setSignInProcessing true s in
          match sessionUser (eventSession w) with
          | Some _ =>
              let s2 :=
                onCore (fun st => setLoadingMessage "Carregando Perfil..."
                                    (setAuthLoading true (setSession (eventSession w) st))) s1 in
              let s3 :=
                match eventSettles w with
                | BeforeTimeout => onCore (fetchRole (eventProfile w)) s2
                | _ => s2
                end in
              let s4 := onCore (setLoadingMessage "Preparando Ambiente...") s3 in
              let s5 :=
                match eventSettles w with
                | DuringLastWait => onCore (fetchRole (eventProfile w)) s4
                | _ => s4
                end in
              (if mountedAtTimer w
               then setSignInProcessing false (onCore (setAuthLoading false) s5)
               else s5, [])
          | None => (setSignInProcessing false s1, [])
          end
    | SIGNED_OUT =>
        (onCore (fun st => loggedOut (setProfileResolved false st)) s, [])
    | TOKEN_REFRESHED => (s, [])
    | PASSWORD_RECOVERY =>
        match recoverySession w with
        | Resolves (Some _) => (s, [SignOut])
        | Resolves None => (onCore loggedOut s, [])
        | Rejects => (s, [])
        end
    | OTHER_EVENT => (s, [])
    end.

(** The session seen by the periodic check: only its expiry is read. *)
Record CheckedSession : Type := { expires_at : option Z }.

(** The second getSession of the check: { data, error }. *)
Inductive CheckReply : Type :=
| Checked (s : option CheckedSession)
| CheckError
| CheckRejected.

(** What surrounds one tick of the 30 s interval: whether the component
    is mounted at the start and after the two calls, the first
    getSession (only whether a session came back is read; a rejection
    ends the tick), the second one, and Date.now() in milliseconds. *)
Record CheckWorld : Type := {
  checkMounted : bool;
  checkMountedLater : bool;
  firstHasSession : option bool;
  secondReply : CheckReply;
  nowMs : Z
}.

(** if (expiresAt) { timeLeft = expiresAt - Math.floor(Date.now() / 1000);
    if (timeLeft < -60) ... } *)
Definition expiredBeyondBuffer (w : CheckWorld) (cs : CheckedSession) : bool :=
  match expires_at cs with
  | Some expiresAt =>
      if expiresAt =? 0 then false
      else expiresAt - nowMs w / 1000 <? -60
  | None => false
  end.

Definition sessionCheck (w : CheckWorld) (s : ShellState) : ShellState :=
  if negb (checkMounted w) then s
  else
    match firstHasSession w with
    | Some true =>
        match secondReply w with
        | CheckError | CheckRejected => s
        | Checked None =>
            if checkMountedLater w
            then onCore (fun st => loggedOut (setProfileResolved false st)) s
            else s
        | Checked (Some cs) =>
            if expiredBeyondBuffer w cs && checkMountedLater w
            then onCore (fun st => loggedOut (setProfileResolved false st)) s
            else s
        end
    | _ => s
    end.

(** How the race of initAuth ends: getSession first, with its session
    and whether it reports an error, the 5000 ms timer first, or a
    rejection. *)
Inductive InitReply : Type :=
| SessionFirst (s : option Session) (error : bool)
| TimerFirst
| InitRejected.

Record InitWorld : Type := {
  initReply : InitReply;
  mountedAfterRace : bool;
  mountedAtEnd : bool;
  initProfile : Profile
}.

(** [initAuth], with the role fetch it awaits taken as settled. *)
Definition initAuth (w : InitWorld) (st : State) : State :=
  let finally_ (st' : State) := if mountedAtEnd w then setAuthLoading false st' else st' in
  match initReply w with
  | InitRejected => finally_ st
  | TimerFirst =>
      finally_ (if mountedAfterRace w then setUserRole "Student" (setSession None st) else st)
  | SessionFirst sess error =>
      let st1 := if error && mountedAfterRace w then setSession None st else st in
      finally_
        (if mountedAfterRace w then
           let st2 := setSession sess st1 in
           match sessionUser sess with
           | Some _ => fetchRole (initProfile w) (setLoadingMessage "Restaurando Sessão..." st2)
           | None => if JS.not_nullish sess then st2 else setUserRole "Student" st2
           end
         else st1)
  end.

End Shell.

(** ** Reference definitions and sample data for the shell *)

Module ShellSpec.
Import App Shell.

(** What three polls of getSession give, read off the answers: the first
    session with a user, nothing, or the first rejection met before
    one. *)
Inductive Polled : Type :=
| Found (s : Session) (u : User)
| NotFound
| Threw.

Fixpoint polledFrom (w : World) (k remaining : nat) : Polled :=
  match remaining with
  | O => NotFound
  | S n =>
      match getSession w k with
      | Rejects => Threw
      | Resolves (Some s) =>
          match s_user s with
          | Some u => Found s u
          | None => polledFrom w (S k) n
          end
      | Resolves None => polledFrom w (S k) n
      end
  end.

Definition polled (w : World) : Polled := polledFrom w 0 3.

(** The role fetch has settled by the time handleLoginSuccess returns. *)
Definition settledInTime (w : World) : bool :=
  match settles w with
  | BeforeTimeout | DuringLastWait => true
  | AfterReturn => false
  end.

(** The fields of a logged-out user. *)
Definition isLoggedOut (st : State) : Prop :=
  session st = None /\ userRole st = "Student" /\ authLoading st = false.

(** The shell once a call of handleLoginSuccess has returned. *)
Definition afterLogin (w : World) (s : ShellState) : ShellState :=
  onCore (fun st => fst (handleLoginSuccess w st)) s.

Definition adminRow : AppUser :=
  {| user_rules := RelationArray [Some {| rule_name := Some "Professor" |}];
     user_rule := NoRelation |}.

Definition professorQueries : RoleQueries :=
  {| single := Row (Some adminRow); maybeSingle := QueryError |}.

(** A professor signs in; the role arrives before the timer. *)
Definition professorWorld : World :=
  {| client := true;
     getSession := fun _ => Resolves (Some Examples.Login.someSession);
     profile := profileOf professorQueries;
     settles := BeforeTimeout |}.

(** The same, with a role fetch that outlasts the sequence. *)
Definition slowRoleWorld : World :=
  {| client := true;
     getSession := fun _ => Resolves (Some Examples.Login.someSession);
     profile := profileOf professorQueries;
     settles := AfterReturn |}.


Definition freshShell : ShellState :=
  {| core := Examples.Login.loggedOut; isConnected := true;
     roleCheckAttempted := false; signInProcessingRef := false |}.

(** A student at work in the application. *)
Definition workingShell : ShellState :=
  {| core := {| session := Some Examples.Login.someSession; userRole := "Student";
                authLoading := false; loadingMessage := "";
                loginProcessingRef := false; profileResolvedRef := true |};
     isConnected := true; roleCheckAttempted := true; signInProcessingRef := false |}.

(** An event that arrives at a mounted component, without a session. *)
Definition plainEvent : EventWorld :=
  {| mounted := true; mountedAtTimer := true; eventSession := None;
     eventProfile := NoProfile; eventSettles := BeforeTimeout;
     recoverySession := Resolves None |}.

(** A tick 60.999 s after the expiry of the session. *)
Definition graceTick : CheckWorld :=
  {| checkMounted := true; checkMountedLater := true; firstHasSession := Some true;
     secondReply := Checked (Some {| expires_at := Some 1700000000 |});
     nowMs := 1700000060999 |}.

(** The start-up race is lost to the timer. *)
Definition timedOutInit : InitWorld :=
  {| initReply := TimerFirst; mountedAfterRace := true; mountedAtEnd := true;
     initProfile := NoProfile |}.

(** A signed-in student whose role has not been looked at again. *)
Definition uncheckedShell : ShellState :=
  {| core := {| session := Some Examples.Login.someSession; userRole := "Student";
                authLoading := false; loadingMessage := "";
                loginProcessingRef := false; profileResolvedRef := false |};
     isConnected := true; roleCheckAttempted := false; signInProcessingRef := false |}.

(** Both role queries come back with an error. *)
Definition failingQueries : RoleQueries :=
  {| single := QueryError; maybeSingle := QueryError |}.

End ShellSpec.

(** ** The student layout *)

Module Layout.
Import Dashboard.

(** type StudentView = 'dashboard' | 'results' | 'exam' | 'my_class' *)
Inductive StudentView : Type := dashboard | results | exam | my_class.

#[export] Instance StudentView_eq_dec : EqDecision StudentView.
Proof. solve_decision. Defined.

(** The shared View type: the names above and names of other
    applications. *)
Inductive View : Type :=
| student_view (v : StudentView)
| other_view.

Record State : Type := {
  currentView : StudentView;
  activeExam : option TestRelease;
  isSidebarOpen : bool
}.

Definition initial : State :=
  {| currentView := dashboard; activeExam := None; isSidebarOpen := false |}.

(** [handleNavigate]; [confirmAnswer] is what window.confirm gives when
    it is asked. *)
Definition handleNavigate (confirmAnswer : bool) (view : View) (st : State) : State :=
  if bool_decide (currentView st = exam) && negb confirmAnswer then st
  else
    let exam_ := if bool_decide (currentView st = exam) then None else activeExam st in
    let view_ :=
      match view with
      | student_view dashboard => dashboard
      | student_view results => results
      | student_view my_class => my_class
      | _ => currentView st
      end in
    {| currentView := view_; activeExam := exam_; isSidebarOpen := false |}.

Definition startExam (confirmAnswer : bool) (release : TestRelease) (st : State) : State :=
  if confirmAnswer
  then {| currentView := exam; activeExam := Some release;
          isSidebarOpen := isSidebarOpen st |}
  else st.

Definition handleExamComplete (st : State) : State :=
  {| currentView := results; activeExam := None; isSidebarOpen := isSidebarOpen st |}.

(** onExit={() => { setActiveExam(null); setCurrentView('dashboard'); }} *)
Definition handleExamExit (st : State) : State :=
  {| currentView := dashboard; activeExam := None; isSidebarOpen := isSidebarOpen st |}.

(** What the user can do: one of the three navigation buttons, starting
    a test from the dashboard, and the two ways out of the exam room. *)
Inductive Event : Type :=
| NavigateTo (view : View) (confirmAnswer : bool)
| StartExam (release : TestRelease) (confirmAnswer : bool)
| ExamComplete
| ExamExit.

(** The navigation buttons pass 'dashboard', 'my_class' or 'results'. *)
Definition fromButtons (e : Event) : Prop :=
  match e with
  | NavigateTo view _ =>
      view = student_view dashboard \/ view = student_view my_class
      \/ view = student_view results
  | _ => True
  end.

Definition step (e : Event) (st : State) : State :=
  match e with
  | NavigateTo view c => handleNavigate c view st
  | StartExam r c => startExam c r st
  | ExamComplete => handleExamComplete st
  | ExamExit => handleExamExit st
  end.

Definition run (es : list Event) (st : State) : State :=
  foldl (fun acc e => step e acc) st es.

(** What fills the window: the exam room with its release and test ids,
    or the panel of the current view, of which 'exam' has none. *)
Inductive Shown : Type :=
| ExamRoomOf (releaseId testId : string)
| DashboardPanel
| ClassPanel
| ResultsPanel
| NoPanel.

Definition shown (hasSession : bool) (st : State) : Shown :=
  match activeExam st with
  | Some r =>
      if bool_decide (currentView st = exam) && hasSession
      then ExamRoomOf (r_id r) (r_test_id r)
      else match currentView st with
           | dashboard => DashboardPanel
           | my_class => ClassPanel
           | results => ResultsPanel
           | exam => NoPanel
           end
  | None =>
      match currentView st with
      | dashboard => DashboardPanel
      | my_class => ClassPanel
      | results => ResultsPanel
      | exam => NoPanel
      end
  end.

End Layout.

(** ** Facts about the helpers *)

Module JSFacts.

Lemma sort_insert_never_after {A} (cmp : A -> A -> option Z) (x : A) (l : list A) :
  (forall y, JS.goes_after (cmp x y) = false) ->
  JS.sort_insert cmp x l = x :: l.
Proof.
  intros Hcmp. destruct l as [|y ys]; simpl; [reflexivity|].
  now rewrite Hcmp.
Qed.

(** A comparator that never answers a positive number leaves the array
    as it is. *)
Lemma sort_never_after {A} (cmp : A -> A -> option Z) (l : list A) :
  (forall x y, JS.goes_after (cmp x y) = false) ->
  JS.sort cmp l = l.
Proof.
  intros Hcmp. unfold JS.sort.
  induction l as [|x xs IH]; simpl; [reflexivity|].
  rewrite IH. apply sort_insert_never_after. intros y. apply Hcmp.
Qed.

Lemma sort_insert_Permutation {A} (cmp : A -> A -> option Z) (x : A) (l : list A) :
  JS.sort_insert cmp x l ≡ₚ x :: l.
Proof.
  induction l as [|y ys IH]; simpl; [reflexivity|].
  destruct (JS.goes_after (cmp x y)); [|reflexivity].
  rewrite IH. apply Permutation_swap.
Qed.

(** Sorting keeps the elements. *)
Lemma sort_Permutation {A} (cmp : A -> A -> option Z) (l : list A) :
  JS.sort cmp l ≡ₚ l.
Proof.
  unfold JS.sort.
  induction l as [|x xs IH]; simpl; [reflexivity|].
  rewrite sort_insert_Permutation. now rewrite IH.
Qed.

Lemma minus_undefined_l (b : option Z) : JS.minus None b = None.
Proof. reflexivity. Qed.

Lemma strict_eq_true (x y : option string) : JS.strict_eq x y = true <-> x = y.
Proof. unfold JS.strict_eq. apply bool_decide_eq_true. Qed.

End JSFacts.

(** ** The exam room: grading *)

Module ExamRoomFacts.
Import ExamRoom ExamRoomSpec.

Ltac run_step := unfold mbind, mret, Run_bind, Run_ret, emit, incrCorrectCount; simpl.

Lemma find_run (p : QuestionOption -> bool) (l : list QuestionOption) (fr : Frame) :
  find p l fr =
  (List.find p l,
   {| f_correctCount := f_correctCount fr;
      f_events := f_events fr ++ List.map (fun o => Probe (o_id o)) (probed p l) |}).
Proof.
  revert fr. induction l as [|o os IH]; intros [c ev]; simpl.
  - run_step. now rewrite app_nil_r.
  - run_step. destruct (p o) eqn:Hp.
    + reflexivity.
    + rewrite IH. simpl. now rewrite <- app_assoc.
Qed.

Lemma find_opt_run (p : QuestionOption -> bool) (q : Question) (fr : Frame) :
  find_opt p (question_options q) fr =
  (List.find p (optionsOf q),
   {| f_correctCount := f_correctCount fr;
      f_events := f_events fr ++ List.map (fun o => Probe (o_id o)) (probed p (optionsOf q)) |}).
Proof.
  unfold find_opt, optionsOf. destruct (question_options q) as [os|]; simpl.
  - apply find_run.
  - run_step. destruct fr; simpl. now rewrite app_nil_r.
Qed.

Lemma gradeQuestion_run (a : gmap string string) (q : Question) (idx : nat) (fr : Frame) :
  gradeQuestion a q idx fr =
  (grade a q idx,
   {| f_correctCount := f_correctCount fr + (if isCorrect (grade a q idx) then 1 else 0);
      f_events := f_events fr ++ eventsOf a q idx |}).
Proof.
  unfold gradeQuestion. run_step.
  rewrite find_opt_run. simpl. rewrite find_opt_run. simpl.
  unfold grade, eventsOf, probesOf. simpl.
  destruct (JS.not_nullish (a !! q_id q) && _) eqn:Hc; simpl;
    rewrite <- ?app_assoc; simpl; rewrite <- ?app_assoc; try reflexivity.
  now rewrite Z.add_0_r.
Qed.

Lemma map_from_run (a : gmap string string) (qs : list Question) (idx : nat) (fr : Frame) :
  map_from (gradeQuestion a) qs idx fr =
  (gradeFrom a qs idx,
   {| f_correctCount := f_correctCount fr + countTrue (gradeFrom a qs idx);
      f_events := f_events fr ++ concat (eventsFrom a qs idx) |}).
Proof.
  revert idx fr. induction qs as [|q rest IH]; intros idx [c ev]; simpl.
  - run_step. unfold countTrue. simpl. now rewrite Z.add_0_r, app_nil_r.
  - unfold mbind, Run_bind at 1. rewrite gradeQuestion_run.
    unfold mbind, Run_bind. rewrite IH. unfold mret, Run_ret. simpl.
    f_equal. f_equal.
    + unfold countTrue. cbn [List.filter isCorrect grade].
      destruct (JS.not_nullish _ && _);
        cbn [length]; rewrite ?Nat2Z.inj_succ; lia.
    + now rewrite <- app_assoc.
Qed.

Lemma calculateScore_run_loaded (st : State) (qs : list Question) :
  test st ≫= questions = Some qs ->
  calculateScore_run st =
  (let graded := gradeFrom (answers st) qs 0 in
   let total := Z.of_nat (length qs) in
   {| score := if 0 <? total then percentage (countTrue graded) total else JS.of_Z 0;
      correctCount := countTrue graded;
      errorCount := total - countTrue graded;
      gradedAnswers := graded |},
   concat (eventsFrom (answers st) qs 0)).
Proof.
  intros Hqs. unfold calculateScore_run, map. rewrite Hqs, map_from_run.
  reflexivity.
Qed.

Lemma calculateScore_run_unloaded (st : State) :
  test st ≫= questions = None ->
  calculateScore_run st = (emptyResult, []).
Proof. intros Hqs. unfold calculateScore_run. now rewrite Hqs. Qed.

Lemma gradeFrom_length (a : gmap string string) (qs : list Question) (idx : nat) :
  length (gradeFrom a qs idx) = length qs.
Proof. revert idx. induction qs as [|q rest IH]; intros idx; simpl; [|rewrite IH]; reflexivity. Qed.

Lemma gradeFrom_lookup (a : gmap string string) (qs : list Question) (idx i : nat) (q : Question) :
  qs !! i = Some q ->
  gradeFrom a qs idx !! i = Some (grade a q (idx + i)).
Proof.
  revert idx i. induction qs as [|q0 rest IH]; intros idx i Hq; [discriminate|].
  destruct i as [|i]; simpl in *.
  - injection Hq as ->. now rewrite Nat.add_0_r.
  - rewrite (IH (S idx) i Hq). do 2 f_equal. lia.
Qed.

Lemma gradeFrom_questionIds (a : gmap string string) (qs : list Question) (idx : nat) :
  List.map questionId (gradeFrom a qs idx) = List.map q_id qs.
Proof. revert idx. induction qs as [|q rest IH]; intros idx; simpl; [|rewrite IH]; reflexivity. Qed.

Lemma eventsFrom_length (a : gmap string string) (qs : list Question) (idx : nat) :
  length (eventsFrom a qs idx) = length qs.
Proof. revert idx. induction qs as [|q rest IH]; intros idx; simpl; [|rewrite IH]; reflexivity. Qed.

Lemma eventsFrom_lookup (a : gmap string string) (qs : list Question) (idx i : nat) (q : Question) :
  qs !! i = Some q ->
  eventsFrom a qs idx !! i = Some (eventsOf a q (idx + i)).
Proof.
  revert idx i. induction qs as [|q0 rest IH]; intros idx i Hq; [discriminate|].
  destruct i as [|i]; simpl in *.
  - injection Hq as ->. now rewrite Nat.add_0_r.
  - rewrite (IH (S idx) i Hq). do 2 f_equal. lia.
Qed.

Lemma probed_elem (p : QuestionOption -> bool) (l : list QuestionOption) (o : QuestionOption) :
  o ∈ probed p l -> o ∈ l.
Proof.
  induction l as [|x xs IH]; simpl; [easy|].
  intros [->|Hin]%elem_of_cons; [left|right].
  destruct (p x); [now apply elem_of_nil in Hin | auto].
Qed.

Lemma probed_length (p : QuestionOption -> bool) (l : list QuestionOption) :
  (length (probed p l) <= length l)%nat.
Proof.
  induction l as [|x xs IH]; simpl; [lia|].
  destruct (p x); simpl; lia.
Qed.

Lemma probesOf_own_options (a : gmap string string) (q : Question) (e : Event) :
  e ∈ probesOf a q -> exists o, e = Probe (o_id o) /\ o ∈ optionsOf q.
Proof.
  unfold probesOf. rewrite elem_of_app, !list_elem_of_In, !in_map_iff.
  intros [[o [<- Hin]]|[o [<- Hin]]]; exists o; split; try reflexivity;
    apply list_elem_of_In in Hin; eapply probed_elem; eassumption.
Qed.

Lemma probesOf_length (a : gmap string string) (q : Question) :
  (length (probesOf a q) <= 2 * length (optionsOf q))%nat.
Proof.
  unfold probesOf. rewrite length_app, !length_map.
  pose proof (probed_length o_is_correct (optionsOf q)).
  pose proof (probed_length (fun o => JS.strict_eq (Some (o_id o)) (a !! q_id q)) (optionsOf q)).
  lia.
Qed.

(** [List.find] gives the first accepted element. *)
Lemma find_first (p : QuestionOption -> bool) (l : list QuestionOption) (o : QuestionOption) :
  List.find p l = Some o <->
  exists before after,
    l = before ++ o :: after /\ p o = true /\ Forall (fun o' => p o' = false) before.
Proof.
  split.
  - induction l as [|x xs IH]; simpl; [discriminate|].
    destruct (p x) eqn:Hp.
    + intros [= ->]. exists [], xs. auto.
    + intros Hf. destruct (IH Hf) as (before & after & -> & Ho & Hall).
      exists (x :: before), after. auto.
  - intros (before & after & -> & Ho & Hall).
    induction Hall as [|x before Hx Hall IH]; simpl.
    + now rewrite Ho.
    + now rewrite Hx.
Qed.

Lemma find_markedCorrect (q : Question) (o : QuestionOption) :
  List.find o_is_correct (optionsOf q) = Some o <-> markedCorrect q o.
Proof. apply find_first. Qed.

Lemma countsAsCorrect_iff (a : gmap string string) (q : Question) :
  countsAsCorrect a q = true <-> selectedCorrectly a q.
Proof.
  unfold countsAsCorrect, selectedCorrectly. split.
  - destruct (a !! q_id q) as [sel|]; [|discriminate].
    destruct (List.find o_is_correct (optionsOf q)) as [o|] eqn:Hf; [|discriminate].
    intros Heq%bool_decide_eq_true. exists sel, o.
    split; [reflexivity|]. split; [now apply find_markedCorrect | assumption].
  - intros (sel & o & -> & Hm%find_markedCorrect & ->). rewrite Hm.
    now apply bool_decide_eq_true.
Qed.

Lemma isCorrect_grade (a : gmap string string) (q : Question) (idx : nat) :
  isCorrect (grade a q idx) = countsAsCorrect a q.
Proof.
  unfold grade, countsAsCorrect. simpl.
  destruct (a !! q_id q) as [sel|]; simpl; [|reflexivity].
  destruct (List.find o_is_correct (optionsOf q)) as [o|]; simpl.
  - unfold JS.strict_eq. apply bool_decide_ext. split; congruence.
  - reflexivity.
Qed.

Lemma countTrue_gradeFrom (a : gmap string string) (qs : list Question) (idx : nat) :
  countTrue (gradeFrom a qs idx) =
  Z.of_nat (length (List.filter (countsAsCorrect a) qs)).
Proof.
  unfold countTrue. f_equal. revert idx.
  induction qs as [|q rest IH]; intros idx; [reflexivity|].
  cbn [gradeFrom List.filter]. rewrite isCorrect_grade.
  destruct (countsAsCorrect a q); cbn [length]; now rewrite IH.
Qed.

Lemma countTrue_countFalse (l : list GradedAnswer) :
  countTrue l + countFalse l = Z.of_nat (length l).
Proof.
  unfold countTrue, countFalse.
  induction l as [|g rest IH]; [reflexivity|].
  cbn [List.filter]. destruct (isCorrect g); cbn [negb length];
    rewrite ?Nat2Z.inj_succ; lia.
Qed.

Lemma countTrue_bounds (l : list GradedAnswer) :
  0 <= countTrue l <= Z.of_nat (length l).
Proof.
  pose proof (countTrue_countFalse l). unfold countTrue, countFalse in *. lia.
Qed.


Lemma concat_eventsFrom_length (a : gmap string string) (qs : list Question) (idx : nat) :
  (length (concat (eventsFrom a qs idx))
   <= length qs + 2 * list_sum (List.map (fun q => length (optionsOf q)) qs))%nat.
Proof.
  revert idx. induction qs as [|q rest IH]; intros idx; simpl; [lia|].
  rewrite length_app. pose proof (probesOf_length a q). specialize (IH (S idx)).
  simpl in *. lia.
Qed.

Lemma calculateScore_loaded (st : State) (qs : list Question) :
  test st ≫= questions = Some qs ->
  calculateScore st =
  (let graded := gradeFrom (answers st) qs 0 in
   let total := Z.of_nat (length qs) in
   {| score := if 0 <? total then percentage (countTrue graded) total else JS.of_Z 0;
      correctCount := countTrue graded;
      errorCount := total - countTrue graded;
      gradedAnswers := graded |}).
Proof.
  intros Hqs. unfold calculateScore. now rewrite (calculateScore_run_loaded st qs Hqs).
Qed.

Lemma loaded_questions (st : State) (t : Test) (qs : list Question) :
  test st = Some t -> questions t = Some qs -> test st ≫= questions = Some qs.
Proof. intros -> Hqs. exact Hqs. Qed.

(** The two counters are tallies of the graded answers. *)
Lemma calculateScore_tallies (st : State) :
  correctCount (calculateScore st) = countTrue (gradedAnswers (calculateScore st))
  /\ errorCount (calculateScore st) = countFalse (gradedAnswers (calculateScore st)).
Proof.
  destruct (test st ≫= questions) as [qs|] eqn:Hqs.
  - rewrite (calculateScore_loaded st qs Hqs).
    cbn zeta. cbn [gradedAnswers correctCount errorCount].
    pose proof (countTrue_countFalse (gradeFrom (answers st) qs 0)) as Hsum.
    rewrite gradeFrom_length in Hsum. split; [reflexivity | lia].
  - unfold calculateScore. rewrite (calculateScore_run_unloaded st Hqs).
    split; reflexivity.
Qed.

(** C1. For a loaded test, calculateScore marks the question at each
    position as correct exactly when the selected option id is present
    and is the id of the question's option marked is_correct;
    correctCount is the number of such questions; the score is
    Math.round((correctCount / totalQuestions) * 100) with totalQuestions
    the length of the question list, and 0 when that length is 0. *)
Theorem calculateScore_counts_and_percentage
    (st : State) (t : Test) (qs : list Question) :
  test st = Some t ->
  questions t = Some qs ->
  let r := calculateScore st in
  let total := Z.of_nat (length qs) in
  (forall i q, qs !! i = Some q ->
     exists g, gradedAnswers r !! i = Some g
               /\ questionId g = q_id q
               /\ (isCorrect g = true <-> selectedCorrectly (answers st) q))
  /\ correctCount r = Z.of_nat (length (List.filter (countsAsCorrect (answers st)) qs))
  /\ (forall q, countsAsCorrect (answers st) q = true <-> selectedCorrectly (answers st) q)
  /\ (total <> 0 ->
      score r = JS.Math_round (JS.mul (JS.div (JS.of_Z (correctCount r)) (JS.of_Z total))
                                      (JS.of_Z 100)))
  /\ (total = 0 -> score r = JS.of_Z 0).
Proof.
  intros Ht Hqs r total. subst r.
  rewrite (calculateScore_loaded st qs (loaded_questions st t qs Ht Hqs)).
  cbn zeta. cbn [gradedAnswers correctCount score].
  split; [|split; [|split; [|split]]].
  - intros i q Hq. exists (grade (answers st) q (0 + i)).
    split; [now apply gradeFrom_lookup|]. split; [reflexivity|].
    rewrite isCorrect_grade. apply countsAsCorrect_iff.
  - apply countTrue_gradeFrom.
  - intros q. apply countsAsCorrect_iff.
  - intros Hne. subst total. destruct (0 <? Z.of_nat (length qs)) eqn:Hlt; [reflexivity|].
    apply Z.ltb_ge in Hlt. lia.
  - intros Hz. subst total. now rewrite Hz.
Qed.

Lemma calculateScore_counts_and_percentage_witness :
  test Examples.Exam.sampleState = Some Examples.Exam.sampleTest
  /\ questions Examples.Exam.sampleTest = Some Examples.Exam.sampleQuestions
  /\ correctCount (calculateScore Examples.Exam.sampleState) = 1
  /\ score (calculateScore Examples.Exam.sampleState) = JS.of_Z 33.
Proof.
  split; [reflexivity|]. split; [reflexivity|].
  pose proof (calculateScore_counts_and_percentage
                Examples.Exam.sampleState Examples.Exam.sampleTest
                Examples.Exam.sampleQuestions eq_refl eq_refl) as H.
  cbv zeta in H. destruct H as (_ & Hcount & _ & Hscore & _).
  split.
  - rewrite Hcount. vm_compute. reflexivity.
  - rewrite Hscore; [|discriminate]. rewrite Hcount. vm_compute. reflexivity.
Defined.

(** C2. For every state, correctCount + errorCount = totalQuestions and
    0 <= correctCount <= totalQuestions; there is one graded answer per
    question, in order, correctCount is the number of graded answers
    that are correct and errorCount the number of those that are not. *)
Theorem calculateScore_partition (st : State) :
  let r := calculateScore st in
  correctCount r + errorCount r = totalQuestions st
  /\ 0 <= correctCount r <= totalQuestions st
  /\ Z.of_nat (length (gradedAnswers r)) = totalQuestions st
  /\ List.map questionId (gradedAnswers r)
     = List.map q_id (default [] (test st ≫= questions))
  /\ correctCount r = countTrue (gradedAnswers r)
  /\ errorCount r = countFalse (gradedAnswers r).
Proof.
  intros r. subst r. unfold totalQuestions.
  destruct (test st ≫= questions) as [qs|] eqn:Hqs.
  - rewrite (calculateScore_loaded st qs Hqs).
    cbn zeta. cbn [gradedAnswers correctCount errorCount default].
    pose proof (countTrue_countFalse (gradeFrom (answers st) qs 0)) as Hsum.
    pose proof (countTrue_bounds (gradeFrom (answers st) qs 0)) as Hb.
    rewrite gradeFrom_length in Hsum, Hb.
    rewrite gradeFrom_length, gradeFrom_questionIds.
    repeat split; try reflexivity; lia.
  - unfold calculateScore. rewrite (calculateScore_run_unloaded st Hqs).
    cbn. repeat split; try reflexivity; lia.
Qed.

(** C3. Two runs on states that hold the same question list (with its
    options) and the same answers give the same result: the same score,
    correctCount and errorCount, and the same graded answer at every
    position. *)
Theorem calculateScore_deterministic (st1 st2 : State) :
  test st1 ≫= questions = test st2 ≫= questions ->
  answers st1 = answers st2 ->
  calculateScore st1 = calculateScore st2
  /\ score (calculateScore st1) = score (calculateScore st2)
  /\ correctCount (calculateScore st1) = correctCount (calculateScore st2)
  /\ errorCount (calculateScore st1) = errorCount (calculateScore st2)
  /\ (forall i, gradedAnswers (calculateScore st1) !! i
                = gradedAnswers (calculateScore st2) !! i).
Proof.
  intros Hqs Hans.
  assert (calculateScore st1 = calculateScore st2) as Heq.
  { unfold calculateScore, calculateScore_run. now rewrite Hqs, Hans. }
  rewrite Heq. repeat split; reflexivity.
Qed.

Lemma calculateScore_deterministic_witness :
  calculateScore Examples.Exam.sampleState = calculateScore Examples.Exam.sampleStateLater.
Proof.
  refine (proj1 (calculateScore_deterministic
                   Examples.Exam.sampleState Examples.Exam.sampleStateLater _ _)).
  - reflexivity.
  - vm_compute. reflexivity.
Defined.

(** C6. calculateScore returns for every question list, after one pass:
    what it touches splits into one segment per question, in list
    order; a segment is one callback invocation on that question
    followed by predicate calls on options of that same question, at
    most two per option. *)
Theorem calculateScore_single_pass (st : State) (qs : list Question) :
  test st ≫= questions = Some qs ->
  exists (r : ScoreResult) (segments : list (list Event)),
    calculateScore_run st = (r, concat segments)
    /\ length segments = length qs
    /\ length (gradedAnswers r) = length qs
    /\ (forall i q, qs !! i = Some q ->
          exists probes,
            segments !! i = Some (Visit i (q_id q) :: probes)
            /\ (forall e, e ∈ probes ->
                  exists o, e = Probe (o_id o) /\ o ∈ optionsOf q)
            /\ (length probes <= 2 * length (optionsOf q))%nat)
    /\ (length (concat segments)
        <= length qs + 2 * list_sum (List.map (fun q => length (optionsOf q)) qs))%nat.
Proof.
  intros Hqs. rewrite (calculateScore_run_loaded st qs Hqs).
  eexists. exists (eventsFrom (answers st) qs 0).
  split; [reflexivity|]. cbn zeta. cbn [gradedAnswers].
  split; [apply eventsFrom_length|].
  split; [apply gradeFrom_length|].
  split; [|apply concat_eventsFrom_length].
  intros i q Hq. exists (probesOf (answers st) q).
  split; [exact (eventsFrom_lookup (answers st) qs 0 i q Hq)|].
  split; [apply probesOf_own_options | apply probesOf_length].
Qed.

Lemma calculateScore_single_pass_witness :
  exists (r : ScoreResult) (segments : list (list Event)),
    calculateScore_run Examples.Exam.sampleState = (r, concat segments)
    /\ length segments = 3%nat.
Proof.
  destruct (calculateScore_single_pass Examples.Exam.sampleState
              Examples.Exam.sampleQuestions eq_refl)
    as (r & segments & Hrun & Hlen & _).
  exists r, segments. split; [exact Hrun | exact Hlen].
Defined.

(** C7. handleSelectOption(questionId, optionId) makes optionId the one
    recorded answer of questionId, whatever was recorded before, keeps
    the recorded answer of every other question, and changes nothing
    else in the state. *)
Theorem handleSelectOption_frame (qid oid : string) (st : State) :
  let st' := handleSelectOption qid oid st in
  answers st' !! qid = Some oid
  /\ (forall o, answers st' !! qid = Some o -> o = oid)
  /\ (forall other, other <> qid -> answers st' !! other = answers st !! other)
  /\ test st' = test st
  /\ student st' = student st
  /\ currentQIndex st' = currentQIndex st.
Proof.
  cbn zeta. unfold handleSelectOption, set_answers. cbn [answers test student currentQIndex].
  repeat split.
  - apply lookup_insert_eq.
  - rewrite lookup_insert_eq. now intros o [= <-].
  - intros other Hne. now apply lookup_insert_ne.
Qed.

Lemma handleSelectOption_frame_witness :
  answers (handleSelectOption "q2" "opt-b" Examples.Exam.sampleState) !! "q2" = Some "opt-b"
  /\ answers (handleSelectOption "q2" "opt-b" Examples.Exam.sampleState) !! "q1"
     = answers Examples.Exam.sampleState !! "q1".
Proof.
  pose proof (handleSelectOption_frame "q2" "opt-b" Examples.Exam.sampleState) as H.
  cbv zeta in H. destruct H as (Hset & _ & Hother & _).
  split; [exact Hset|]. apply Hother. discriminate.
Defined.



(** 29 right answers out of 200: the quotient 0.145 times 100 is just
    below 14.5 in binary64, and the score is 14. *)
Example percentage_29_of_200 : percentage 29 200 = JS.of_Z 14.
Proof. vm_compute. reflexivity. Qed.

End ExamRoomFacts.

(** ** The exam room: loading the questions *)

Module InitExamFacts.
Import ExamRoom ExamRoomSpec.

Section WithLocale.

Variable localeCompare : string -> string -> Z.

Lemma flatten_no_order_index (tq : TestQuestionRow) (q : Question) :
  flatten localeCompare tq = JS.Returned q -> q_order_index q = None.
Proof.
  unfold flatten. destruct (tq_questions tq); [|discriminate].
  now intros [= <-].
Qed.

Lemma compareOrderIndex_flat (a b : Question) :
  q_order_index a = None -> JS.goes_after (compareOrderIndex a b) = false.
Proof. unfold compareOrderIndex. now intros ->. Qed.

Lemma map_throwing_flatten_no_order_index
    (rows : list TestQuestionRow) (flat : list Question) :
  JS.map_throwing (flatten localeCompare) rows = JS.Returned flat ->
  Forall (fun q => q_order_index q = None) flat.
Proof.
  revert flat. induction rows as [|tq rest IH]; simpl; intros flat.
  - intros [= <-]. constructor.
  - destruct (flatten localeCompare tq) as [q|] eqn:Hq; [|discriminate].
    destruct (JS.map_throwing (flatten localeCompare) rest) as [qs|]; [|discriminate].
    intros [= <-]. constructor; [eapply flatten_no_order_index; eassumption | now apply IH].
Qed.

Lemma sort_without_order_index (l : list Question) :
  Forall (fun q => q_order_index q = None) l ->
  JS.sort compareOrderIndex l = l.
Proof.
  unfold JS.sort. induction 1 as [|q rest Hq Hrest IH]; simpl; [reflexivity|].
  rewrite IH. apply JSFacts.sort_insert_never_after.
  intros y. now apply compareOrderIndex_flat.
Qed.

(** The loaded list is the flattened rows without the deleted ones,
    in the order the backend sent them: the comparator sees no
    order_index and moves nothing. *)
Lemma loadQuestions_backend_order
    (rows : list TestQuestionRow) (flat : list Question) :
  JS.map_throwing (flatten localeCompare) rows = JS.Returned flat ->
  loadQuestions localeCompare (Some rows)
  = JS.Returned (Some (List.filter (fun q => negb (q_deleted q)) flat)).
Proof.
  intros Hflat. unfold loadQuestions. rewrite Hflat.
  rewrite sort_without_order_index; [reflexivity|].
  apply Forall_forall. intros q Hin.
  apply list_elem_of_In, filter_In in Hin. destruct Hin as [Hin _].
  pose proof (map_throwing_flatten_no_order_index rows flat Hflat) as Hall.
  rewrite Forall_forall in Hall. now apply Hall, list_elem_of_In.
Qed.

(** No loaded question is marked deleted. *)
Lemma loadQuestions_excludes_deleted
    (rows : option (list TestQuestionRow)) (qs : list Question) (q : Question) :
  loadQuestions localeCompare rows = JS.Returned (Some qs) ->
  q ∈ qs -> q_deleted q = false.
Proof.
  unfold loadQuestions. destruct rows as [rows|]; [|discriminate].
  destruct (JS.map_throwing (flatten localeCompare) rows) as [flat|]; [|discriminate].
  intros [= <-] Hin.
  rewrite (JSFacts.sort_Permutation compareOrderIndex) in Hin.
  apply list_elem_of_In, filter_In in Hin. destruct Hin as [_ Hd].
  now apply negb_true_iff in Hd.
Qed.

(** After initExam every question held in the state is live, whatever
    the state was before; so are the questions behind totalQuestions
    and the question ids of the answer payload. *)
Lemma initExam_only_live_questions
    (resp : Responses) (st0 : State) (t : Test) (qs : list Question) :
  test st0 = None ->
  test (fst (initExam localeCompare true resp st0)) = Some t ->
  questions t = Some qs ->
  Forall (fun q => q_deleted q = false) qs
  /\ List.map question_id
       (answerPayload (calculateScore (fst (initExam localeCompare true resp st0))))
     = List.map q_id qs.
Proof.
  intros Hnone Ht Hqs.
  split.
  - unfold initExam in Ht. simpl in Ht.
    destruct (stuData resp) as [stu|]; simpl in Ht; [|congruence].
    destruct (testError resp); simpl in Ht; [congruence|].
    destruct (testData resp) as [row|]; simpl in Ht; [|congruence].
    destruct (loadQuestions localeCompare (test_questions row)) as [oqs|] eqn:Hload;
      simpl in Ht; [|congruence].
    injection Ht as <-. simpl in Hqs. subst oqs.
    apply Forall_forall. intros q Hin.
    eapply loadQuestions_excludes_deleted; eassumption.
  - unfold answerPayload. rewrite List.map_map. cbn [question_id].
    rewrite (ExamRoomFacts.calculateScore_loaded _ qs
               (ExamRoomFacts.loaded_questions _ t qs Ht Hqs)).
    cbn zeta. cbn [gradedAnswers]. apply ExamRoomFacts.gradeFrom_questionIds.
Qed.

End WithLocale.

(** C8, at the sample rows: the backend sends the question with
    order_index 2 before the one with order_index 1, and a deleted one.
    initExam drops the deleted question and keeps the other two in the
    order received, not in the order of order_index. *)
Theorem initExam_keeps_received_order :
  List.map (fun tq => (qr_id <$> tq_questions tq, tq_order_index tq, qr_deleted <$> tq_questions tq))
    Examples.Exam.sampleRows
  = [(Some "second", 2, Some false); (Some "gone", 3, Some true); (Some "first", 1, Some false)]
  /\ (test (fst (initExam Examples.Exam.compareCodes true
                   Examples.Exam.sampleResponses Examples.Exam.initialState))
        ≫= questions) ≫= (fun qs => Some (List.map q_id qs))
     = Some ["second"; "first"].
Proof. split; vm_compute; reflexivity. Qed.

End InitExamFacts.

(** ** The dashboard *)

Module DashboardFacts.
Import Dashboard DashboardSpec.

Section WithDates.

Variable parseDate : string -> option Z.

Lemma some_hasResult (results : list TestResult) (r : TestRelease) :
  JS.some (fun res => JS.strict_eq (test_release_id res) (Some (r_id r))) results = true
  <-> hasResult results r.
Proof.
  unfold JS.some, hasResult. rewrite existsb_exists. split.
  - intros (res & Hin & Heq). exists res. split.
    + now apply list_elem_of_In.
    + now apply JSFacts.strict_eq_true.
  - intros (res & Hin & Heq). exists res. split.
    + now apply list_elem_of_In.
    + now apply JSFacts.strict_eq_true.
Qed.

Lemma lt_nowBefore (now : Z) (t : option Z) :
  JS.lt (Some now) t = true <-> nowBefore now t.
Proof.
  unfold nowBefore. destruct t as [v|]; simpl.
  - rewrite Z.ltb_lt. split; [intros H; exists v; auto | intros (v' & [= <-] & H); exact H].
  - split; [discriminate | intros (v' & [=] & _)].
Qed.

Lemma gt_nowAfter (now : Z) (t : option Z) :
  JS.gt (Some now) t = true <-> nowAfter now t.
Proof.
  unfold nowAfter, JS.gt. destruct t as [v|]; simpl.
  - rewrite Z.ltb_lt. split; [intros H; exists v; auto | intros (v' & [= <-] & H); exact H].
  - split; [discriminate | intros (v' & [=] & _)].
Qed.


Section WithClock.

Variable clock : nat -> Z.

(** When every reading of the clock gives the same instant, a pass
    over the releases is a plain filter on the status at that
    instant. *)
Lemma filterStatus_frozen
    (now : Z) (results : list TestResult) (s : Status) (l : list TestRelease) (k : nat) :
  (forall j, clock j = now) ->
  filterStatus parseDate clock results s l k
  = (List.filter (fun r => bool_decide (statusAt parseDate results now r = s)) l,
     (k + length l)%nat).
Proof.
  intros Hclock. revert k. induction l as [|r rest IH]; intros k; simpl.
  - now rewrite Nat.add_0_r.
  - unfold getTestStatus. rewrite Hclock, IH.
    f_equal. lia.
Qed.

Lemma statusLists_frozen
    (now : Z) (releases : list TestRelease) (results : list TestResult) (s : Status)
    (r : TestRelease) :
  (forall j, clock j = now) ->
  r ∈ listOf (statusLists parseDate clock releases results) s
  <-> r ∈ releases /\ statusAt parseDate results now r = s.
Proof.
  intros Hclock. unfold statusLists.
  rewrite !(filterStatus_frozen now) by assumption.
  destruct s; cbn [listOf activeTests upcomingTests completedTests expiredTests];
    rewrite ?JSFacts.sort_Permutation;
    rewrite list_elem_of_In, filter_In, <- list_elem_of_In, bool_decide_eq_true;
    reflexivity.
Qed.


(** C4, amended. With the clock read as one instant during the
    render, a fetched release is in the list of a status exactly
    when that status is the one getTestStatus gives it; the
    statuses are upcoming, active, completed and expired, so it is
    in exactly one of the four lists. *)
Theorem statusLists_exactly_one
    (now : Z) (releases : list TestRelease) (results : list TestResult)
    (r : TestRelease) :
  (forall j, clock j = now) ->
  r ∈ releases ->
  let lists := statusLists parseDate clock releases results in
  (forall s, r ∈ listOf lists s <-> s = fst (getTestStatus parseDate clock results r 0%nat))
  /\ (exists s, r ∈ listOf lists s /\ forall s', r ∈ listOf lists s' -> s' = s).
Proof.
  intros Hclock Hin lists. subst lists.
  unfold getTestStatus. cbn [fst]. rewrite Hclock.
  split.
  - intros s. rewrite (statusLists_frozen now) by assumption.
    split; [intros [_ <-]; reflexivity | intros ->; auto].
  - exists (statusAt parseDate results now r). split.
    + apply (statusLists_frozen now); auto.
    + intros s'. rewrite (statusLists_frozen now) by assumption.
      now intros [_ <-].
Qed.

End WithClock.

End WithDates.


(** C4 as stated fails on a release whose end has passed and that has
    no result: it is a fetched release, its status is expired, and it
    is in none of the upcoming, active and completed lists. *)
Lemma expired_release_in_none_of_three :
  Examples.Dash.past ∈ Examples.Dash.sampleReleases
  /\ fst (getTestStatus Examples.Dash.parseMillis Examples.Dash.frozenClock
           Examples.Dash.sampleResults Examples.Dash.past 0%nat) = expired
  /\ (Examples.Dash.past ∉ upcomingTests Examples.Dash.frozenLists)
  /\ (Examples.Dash.past ∉ activeTests Examples.Dash.frozenLists)
  /\ (Examples.Dash.past ∉ completedTests Examples.Dash.frozenLists).
Proof.
  split; [|split; [|split; [|split]]].
  - apply list_elem_of_In. simpl. auto.
  - vm_compute. reflexivity.
  - rewrite list_elem_of_In. vm_compute. intros [H|[]]. discriminate.
  - rewrite list_elem_of_In. vm_compute. intros [H|[]]. discriminate.
  - rewrite list_elem_of_In. vm_compute. intros [H|[]]. discriminate.
Qed.

Lemma statusLists_exactly_one_witness :
  Examples.Dash.past ∈ expiredTests
    (statusLists Examples.Dash.parseMillis Examples.Dash.frozenClock
       Examples.Dash.sampleReleases Examples.Dash.sampleResults).
Proof.
  refine (proj2 (proj1 (statusLists_exactly_one Examples.Dash.parseMillis
                          Examples.Dash.frozenClock 3000
                          Examples.Dash.sampleReleases Examples.Dash.sampleResults
                          Examples.Dash.past _ _) expired) _).
  - intros j. reflexivity.
  - apply list_elem_of_In. simpl. auto.
  - vm_compute. reflexivity.
Defined.

(** A release whose end is before its start, seen between the two: both
    time tests hold, and the first one tried decides. *)
Example inverted_window_is_upcoming :
  fst (getTestStatus Examples.Dash.parseMillis Examples.Dash.frozenClock []
         Examples.Dash.inverted 0%nat) = upcoming.
Proof. vm_compute. reflexivity. Qed.

(** Why the instant has to be one: when the clock passes a start time
    between two passes, the release is in none of the four lists. *)
Example running_clock_drops_release :
  statusLists Examples.Dash.parseMillis Examples.Dash.runningClock
    [Examples.Dash.current] []
  = {| activeTests := []; upcomingTests := []; completedTests := []; expiredTests := [] |}.
Proof. vm_compute. reflexivity. Qed.

End DashboardFacts.

(** ** The login sequence *)

Module AppFacts.
Import App AppSpec.

(** A call made while the guard is held returns at once and changes
    nothing. *)
Lemma handleLoginSuccess_guard_held (w : World) (st : State) :
  loginProcessingRef st = true ->
  handleLoginSuccess w st = (st, []).
Proof.
  intros Hheld. unfold handleLoginSuccess, handleLoginSuccess_proc. cbn [app].
  now rewrite Hheld.
Qed.

Ltac run_proc :=
  unfold try_catch, resolveProfile, finish, perform, update,
    mbind, mret, Proc_bind, Proc_ret;
  cbn [app calls effects fst snd].

Lemma sessionCalls_app (l1 l2 : list Effect) :
  sessionCalls (l1 ++ l2) = (sessionCalls l1 + sessionCalls l2)%nat.
Proof. unfold sessionCalls. now rewrite List.filter_app, length_app. Qed.

(** The polling loop: it only calls getSession and waits, makes at most
    as many calls as iterations remain, leaves the component state
    alone, and hands back either a session with a user or null. *)
Lemma pollSession_run (w : World) (n : nat) (m : Machine) :
  exists o m' added,
    pollSession w n m = (o, m')
    /\ app m' = app m
    /\ effects m' = effects m ++ added
    /\ Forall isPollEffect added
    /\ (sessionCalls added <= n)%nat
    /\ (forall s, o = JS.Returned s ->
          s = None \/ exists s' u, s = Some s' /\ s_user s' = Some u).
Proof.
  revert m. induction n as [|n IH]; intros m.
  - exists (JS.Returned None), m, []. cbn.
    rewrite app_nil_r. repeat split; auto. intros s [= <-]. now left.
  - cbn [pollSession]. unfold mbind, Proc_bind, callGetSession.
    destruct (getSession w (calls m)) as [s|].
    + destruct (sessionUser s) as [u|] eqn:Hu.
      * eexists _, _, [CallGetSession]. unfold mret, Proc_ret. cbn.
        repeat split; auto.
        -- repeat constructor.
        -- unfold sessionCalls. cbn. lia.
        -- intros s0 [= <-]. right. destruct s as [s'|]; [|discriminate].
           exists s', u. auto.
      * unfold perform. cbn.
        match goal with
        | |- context [pollSession w n ?m0] =>
            destruct (IH m0) as (o & m' & added & Hrun & Happ & Heff & Hall & Hcalls & Hres)
        end.
        exists o, m', (CallGetSession :: Wait 300 :: added).
        rewrite Hrun. cbn [app effects] in *.
        repeat split; auto.
        -- rewrite Heff, <- !app_assoc. reflexivity.
        -- constructor; [now left|]. constructor; [now right|]. assumption.
        -- unfold sessionCalls in *. cbn. lia.
    + eexists _, _, [CallGetSession]. cbn.
      repeat split; auto.
      * repeat constructor.
      * unfold sessionCalls. cbn. lia.
      * intros s [=].
Qed.

(** The shape of a run that passes the guard with a client: the first
    wait, the polling, and then either nothing or the race for the
    profile; either way the flags are cleared at the end. *)
Lemma handleLoginSuccess_shape (w : World) (st : State) :
  loginProcessingRef st = false ->
  client w = true ->
  exists added tail,
    snd (handleLoginSuccess w st) = Wait 500 :: added ++ tail
    /\ Forall isPollEffect added
    /\ (sessionCalls added <= 3)%nat
    /\ (tail = [] \/ exists uid, tail = raceEffects uid)
    /\ authLoading (fst (handleLoginSuccess w st)) = false
    /\ loginProcessingRef (fst (handleLoginSuccess w st)) = false.
Proof.
  intros Hfree Hclient.
  unfold handleLoginSuccess, handleLoginSuccess_proc. cbn [app].
  rewrite Hfree, Hclient. run_proc.
  match goal with
  | |- context [pollSession w 3 ?m0] =>
      destruct (pollSession_run w 3 m0)
        as (o & m' & added & Hrun & Happ & Heff & Hall & Hcalls & Hres)
  end.
  rewrite Hrun. cbn [app effects] in Heff.
  exists added.
  destruct o as [s|].
  - destruct (Hres s eq_refl) as [->|(s' & u & -> & Hu)].
    + exists []. cbn. rewrite Heff, app_nil_r. repeat split; auto.
    + exists (raceEffects (u_id u)). unfold sessionUser. cbn [mbind option_bind].
      rewrite Hu.
      destruct (settles w); cbn; rewrite Heff, <- ?app_assoc; cbn;
        repeat split; eauto.
  - exists []. cbn. rewrite Heff, app_nil_r. repeat split; auto.
Qed.

Lemma handleLoginSuccess_no_client (w : World) (st : State) :
  loginProcessingRef st = false ->
  client w = false ->
  snd (handleLoginSuccess w st) = []
  /\ authLoading (fst (handleLoginSuccess w st)) = false
  /\ loginProcessingRef (fst (handleLoginSuccess w st)) = false.
Proof.
  intros Hfree Hclient.
  unfold handleLoginSuccess, handleLoginSuccess_proc. cbn [app].
  rewrite Hfree, Hclient. run_proc. cbn. auto.
Qed.

Lemma poll_effect_not_timer (added : list Effect) (ms : Z) :
  Forall isPollEffect added -> StartTimer ms ∉ added.
Proof.
  intros Hall Hin. rewrite Forall_forall in Hall.
  destruct (Hall _ Hin) as [H|H]; discriminate.
Qed.

Lemma poll_effect_not_fetch (added : list Effect) (uid : string) :
  Forall isPollEffect added -> StartFetchRole uid ∉ added.
Proof.
  intros Hall Hin. rewrite Forall_forall in Hall.
  destruct (Hall _ Hin) as [H|H]; discriminate.
Qed.

(** C5, amended. A call made while the guard is not held calls
    getSession at most 3 times, starts the role fetch only together
    with a 5000 ms timer and awaits the race of the two, and ends, on
    each of its paths, with authLoading false and the guard cleared. *)
Theorem handleLoginSuccess_clears_guard (w : World) (st : State) :
  loginProcessingRef st = false ->
  let st' := fst (handleLoginSuccess w st) in
  let effs := snd (handleLoginSuccess w st) in
  authLoading st' = false
  /\ loginProcessingRef st' = false
  /\ (sessionCalls effs <= 3)%nat
  /\ (forall ms, StartTimer ms ∈ effs -> ms = 5000)
  /\ (forall uid, StartFetchRole uid ∈ effs ->
        exists before after,
          effs = before ++ [StartFetchRole uid; StartTimer 5000; AwaitRace] ++ after)
  /\ (client w = false -> effs = []).
Proof.
  intros Hfree. cbn zeta. destruct (client w) eqn:Hclient.
  - destruct (handleLoginSuccess_shape w st Hfree Hclient)
      as (added & tail & -> & Hall & Hcalls & Htail & Hload & Hguard).
    split; [exact Hload|]. split; [exact Hguard|].
    split; [|split; [|split; [|discriminate]]].
    + change (Wait 500 :: added ++ tail) with ([Wait 500] ++ added ++ tail).
      rewrite !sessionCalls_app.
      destruct Htail as [->|[uid ->]]; unfold sessionCalls at 1 3; cbn; lia.
    + intros ms [Hin|[Hin|Hin]%elem_of_app]%elem_of_cons; [discriminate| |].
      * now apply poll_effect_not_timer in Hin.
      * destruct Htail as [->|[uid ->]]; [now apply elem_of_nil in Hin|].
        apply list_elem_of_In in Hin. cbn in Hin.
        intuition (try discriminate; congruence).
    + intros uid [Hin|[Hin|Hin]%elem_of_app]%elem_of_cons; [discriminate| |].
      * now apply poll_effect_not_fetch in Hin.
      * destruct Htail as [->|[uid' ->]]; [now apply elem_of_nil in Hin|].
        apply list_elem_of_In in Hin. cbn in Hin.
        destruct Hin as [[= ->]|[Hin|[Hin|[Hin|[]]]]]; try discriminate.
        exists (Wait 500 :: added), [Wait 300].
        reflexivity.
  - destruct (handleLoginSuccess_no_client w st Hfree Hclient) as (-> & Hload & Hguard).
    split; [exact Hload|]. split; [exact Hguard|].
    unfold sessionCalls. cbn.
    split; [lia|]. split; [|split; [|reflexivity]].
    + intros ms Hin. now apply elem_of_nil in Hin.
    + intros uid Hin. now apply elem_of_nil in Hin.
Qed.

Lemma handleLoginSuccess_clears_guard_witness :
  authLoading (fst (handleLoginSuccess Examples.Login.slowWorld Examples.Login.loggedOut)) = false
  /\ loginProcessingRef
       (fst (handleLoginSuccess Examples.Login.slowWorld Examples.Login.loggedOut)) = false
  /\ (sessionCalls
        (snd (handleLoginSuccess Examples.Login.slowWorld Examples.Login.loggedOut)) <= 3)%nat.
Proof.
  pose proof (handleLoginSuccess_clears_guard
                Examples.Login.slowWorld Examples.Login.loggedOut eq_refl) as H.
  cbv zeta in H. destruct H as (Hload & Hguard & Hcalls & _).
  repeat split; assumption.
Defined.

(** C5 as stated fails on a call made while an earlier one holds the
    guard: the call returns at once, with authLoading still true and
    the guard still held. *)
Lemma reentrant_call_leaves_guard_held :
  handleLoginSuccess Examples.Login.slowWorld Examples.Login.inFlight
  = (Examples.Login.inFlight, [])
  /\ authLoading (fst (handleLoginSuccess Examples.Login.slowWorld Examples.Login.inFlight))
     = true
  /\ loginProcessingRef
       (fst (handleLoginSuccess Examples.Login.slowWorld Examples.Login.inFlight)) = true.
Proof. repeat split; vm_compute; reflexivity. Qed.

(** The session arrives at the third call: three calls, then the race. *)
Example slow_session_effects :
  snd (handleLoginSuccess Examples.Login.slowWorld Examples.Login.loggedOut)
  = [Wait 500; CallGetSession; Wait 300; CallGetSession; Wait 300; CallGetSession;
     StartFetchRole "uid-1"; StartTimer 5000; AwaitRace; Wait 300].
Proof. vm_compute. reflexivity. Qed.

End AppFacts.

(** ** Binary64 facts used by the score and the progress bar *)

Module NumberFacts.

Lemma digits2_pos_iter_xO (p : positive) (k : positive) :
  digits2_pos (Pos.iter xO p k) = (digits2_pos p + k)%positive.
Proof.
  induction k as [|k IH] using Pos.peano_ind.
  - simpl. lia.
  - rewrite Pos.iter_succ. simpl. rewrite IH. lia.
Qed.

Lemma binary_round_aux_exact (m : positive) (e : Z) :
  Z.pos (digits2_pos m) = 53 -> -1074 <= e <= 971 ->
  binary_round_aux JS.prec JS.emax false (Z.pos m) e loc_Exact = S754_finite false m e.
Proof.
  intros Hd He.
  unfold binary_round_aux, shr_fexp, fexp, emin, JS.prec, JS.emax.
  cbn [shr_record_of_loc Zdigits2]. rewrite Hd.
  replace (Z.max (53 + e - 53) (3 - 1024 - 53) - e) with 0 by lia.
  cbn [shr shr_m loc_of_shr_record round_nearest_even Zdigits2 shr_record_of_loc].
  rewrite Hd.
  replace (Z.max (53 + e - 53) (3 - 1024 - 53) - e) with 0 by lia.
  cbn [shr shr_m].
  replace (e <=? 1024 - 53) with true by (symmetry; apply Z.leb_le; lia).
  reflexivity.
Qed.

Lemma digits2_pos_lower (p : positive) :
  2 ^ (Z.pos (digits2_pos p) - 1) <= Z.pos p.
Proof.
  induction p as [p IH|p IH|]; cbn [digits2_pos].
  - rewrite Pos2Z.inj_succ.
    replace (Z.succ (Z.pos (digits2_pos p)) - 1) with (Z.succ (Z.pos (digits2_pos p) - 1)) by lia.
    rewrite Z.pow_succ_r by lia. lia.
  - rewrite Pos2Z.inj_succ.
    replace (Z.succ (Z.pos (digits2_pos p)) - 1) with (Z.succ (Z.pos (digits2_pos p) - 1)) by lia.
    rewrite Z.pow_succ_r by lia. lia.
  - reflexivity.
Qed.

Lemma digits2_pos_bound (p : positive) :
  Z.pos p < 2 ^ 53 -> Z.pos (digits2_pos p) <= 53.
Proof.
  intros Hp. pose proof (digits2_pos_lower p) as Hl.
  destruct (Z.le_gt_cases (Z.pos (digits2_pos p)) 53) as [|Hgt]; [assumption|].
  assert (2 ^ 53 <= 2 ^ (Z.pos (digits2_pos p) - 1)) by (apply Z.pow_le_mono_r; lia).
  lia.
Qed.

Lemma of_Z_pos_finite (p : positive) :
  Z.pos p < 2 ^ 53 ->
  exists m e, JS.of_Z (Z.pos p) = S754_finite false m e /\ Z.pos (digits2_pos m) = 53.
Proof.
  intros Hp.
  assert (Z.pos (digits2_pos p) <= 53) as Hd.
  { now apply digits2_pos_bound. }
  unfold JS.of_Z, binary_normalize, binary_round, shl_align, fexp, emin, JS.prec, JS.emax.
  replace (Z.max (Z.pos (digits2_pos p) + 0 - 53) (3 - 1024 - 53) - 0)
    with (Z.pos (digits2_pos p) - 53) by lia.
  replace (Z.max (Z.pos (digits2_pos p) + 0 - 53) (3 - 1024 - 53))
    with (Z.pos (digits2_pos p) - 53) by lia.
  destruct (Z.pos (digits2_pos p) - 53) as [|k|k] eqn:Hk.
  - exists p, 0. split; [|lia]. apply binary_round_aux_exact; lia.
  - lia.
  - exists (Pos.iter xO p k), (Z.neg k).
    assert (Z.pos (digits2_pos (Pos.iter xO p k)) = 53) as Hd'.
    { rewrite digits2_pos_iter_xO. lia. }
    split; [|exact Hd']. apply binary_round_aux_exact; [exact Hd'|lia].
Qed.

Lemma div_self (m : positive) (e : Z) :
  Z.pos (digits2_pos m) = 53 ->
  JS.div (S754_finite false m e) (S754_finite false m e) = JS.of_Z 1.
Proof.
  intros Hd. unfold JS.div, SFdiv, SFdiv_core_binary, JS.prec, JS.emax.
  cbn [Zdigits2]. rewrite Hd.
  replace (53 + e - (53 + e)) with 0 by lia.
  replace (e - e) with 0 by lia.
  cbn [fexp emin Z.sub Z.add Z.max Z.min Z.opp Z.compare Z.pos_sub].
  change (Z.min (fexp 53 1024 0) 0) with (-53).
  change (0 - -53) with 53.
  cbv match beta.
  assert (Z.div_eucl (Z.shiftl (Z.pos m) 53) (Z.pos m) = (2 ^ 53, 0)) as Hq.
  { rewrite Z.shiftl_mul_pow2 by lia. rewrite Z.mul_comm.
    pose proof (Z.div_mul (2 ^ 53) (Z.pos m) ltac:(lia)) as Hdiv.
    pose proof (Z.mod_mul (2 ^ 53) (Z.pos m) ltac:(lia)) as Hmod.
    rewrite (Z.mul_comm (2 ^ 53)) in Hdiv, Hmod |- *.
    unfold Z.div, Z.modulo in Hdiv, Hmod.
    destruct (Z.div_eucl (Z.pos m * 2 ^ 53) (Z.pos m)) as [q r].
    simpl in Hdiv, Hmod. now subst. }
  rewrite Hq.
  assert (new_location (Z.pos m) 0 = loc_Exact) as Hloc.
  { unfold new_location. destruct (Z.even (Z.pos m)); reflexivity. }
  rewrite Hloc. vm_compute. reflexivity.
Qed.

Lemma zero_div_finite (m : positive) (e : Z) :
  JS.div (JS.of_Z 0) (S754_finite false m e) = JS.of_Z 0.
Proof. reflexivity. Qed.

(** n / n * 100 rounds to 100 and 0 / n * 100 to 0, for a count n
    between 1 and 2^53. *)
Lemma percentage_full (n : Z) :
  0 < n < 2 ^ 53 -> ExamRoomSpec.percentage n n = JS.of_Z 100.
Proof.
  intros Hn. destruct n as [|p|p]; try lia.
  destruct (of_Z_pos_finite p) as (m & e & Hm & Hd); [lia|].
  unfold ExamRoomSpec.percentage. rewrite Hm, (div_self m e Hd).
  vm_compute. reflexivity.
Qed.

Lemma percentage_none (n : Z) :
  0 < n < 2 ^ 53 -> ExamRoomSpec.percentage 0 n = JS.of_Z 0.
Proof.
  intros Hn. destruct n as [|p|p]; try lia.
  destruct (of_Z_pos_finite p) as (m & e & Hm & Hd); [lia|].
  unfold ExamRoomSpec.percentage. rewrite Hm, zero_div_finite.
  vm_compute. reflexivity.
Qed.

End NumberFacts.

(** ** The exam room: navigation, progress and submission *)

Module ExamFlowFacts.
Import ExamRoom ExamRoomSpec ExamFlow.

Lemma filter_all_true {A} (p : A -> bool) (l : list A) :
  (forall x, x ∈ l -> p x = true) -> List.filter p l = l.
Proof.
  induction l as [|x xs IH]; intros Hall; [reflexivity|].
  cbn [List.filter]. rewrite (Hall x) by (left).
  f_equal. apply IH. intros y Hy. apply Hall. now right.
Qed.

Lemma filter_all_false {A} (p : A -> bool) (l : list A) :
  (forall x, x ∈ l -> p x = false) -> List.filter p l = [].
Proof.
  induction l as [|x xs IH]; intros Hall; [reflexivity|].
  cbn [List.filter]. rewrite (Hall x) by (left).
  apply IH. intros y Hy. apply Hall. now right.
Qed.

(** X1. With a loaded list of 1 to 2^53 - 1 questions, the score is 100
    when every question is answered with its option marked is_correct,
    and 0 when none is. *)
Theorem score_extremes (st : State) (qs : list Question) :
  test st ≫= questions = Some qs ->
  0 < Z.of_nat (length qs) < 2 ^ 53 ->
  ((forall q, q ∈ qs -> selectedCorrectly (answers st) q) ->
   score (calculateScore st) = JS.of_Z 100
   /\ correctCount (calculateScore st) = Z.of_nat (length qs)
   /\ errorCount (calculateScore st) = 0)
  /\ ((forall q, q ∈ qs -> ~ selectedCorrectly (answers st) q) ->
      score (calculateScore st) = JS.of_Z 0
      /\ correctCount (calculateScore st) = 0
      /\ errorCount (calculateScore st) = Z.of_nat (length qs)).
Proof.
  intros Hqs Hlen.
  rewrite (ExamRoomFacts.calculateScore_loaded st qs Hqs).
  cbn zeta. cbn [score correctCount errorCount].
  rewrite ExamRoomFacts.countTrue_gradeFrom.
  replace (0 <? Z.of_nat (length qs)) with true by (symmetry; apply Z.ltb_lt; lia).
  split; intros Hall.
  - rewrite filter_all_true.
    + rewrite NumberFacts.percentage_full by lia. repeat split; lia.
    + intros q Hq. now apply ExamRoomFacts.countsAsCorrect_iff, Hall.
  - rewrite filter_all_false.
    + cbn [length]. rewrite NumberFacts.percentage_none by lia. repeat split; lia.
    + intros q Hq. apply not_true_is_false. intros Hc.
      apply (Hall q Hq). now apply ExamRoomFacts.countsAsCorrect_iff.
Qed.

Lemma score_extremes_witness :
  score (calculateScore FlowExamples.perfectState) = JS.of_Z 100.
Proof.
  refine (proj1 (proj1 (score_extremes FlowExamples.perfectState
                          Examples.Exam.sampleQuestions eq_refl _) _)).
  - vm_compute. split; reflexivity.
  - intros q Hq. apply ExamRoomFacts.countsAsCorrect_iff.
    apply list_elem_of_In in Hq. cbn in Hq.
    destruct Hq as [<-|[<-|[<-|[]]]]; vm_compute; reflexivity.
Defined.

Lemma lengthOrOne_loaded (st : State) (qs : list Question) :
  test st ≫= questions = Some qs ->
  0 < Z.of_nat (length qs) ->
  lengthOrOne st = Z.of_nat (length qs).
Proof.
  intros Hqs Hlen. unfold lengthOrOne. rewrite Hqs.
  destruct (Z.of_nat (length qs) =? 0) eqn:Hz; [|reflexivity].
  apply Z.eqb_eq in Hz. lia.
Qed.

Lemma lengthOrOne_bounds (st : State) : 1 <= lengthOrOne st.
Proof.
  unfold lengthOrOne. destruct (test st ≫= questions) as [qs|]; [|lia].
  destruct (Z.of_nat (length qs) =? 0) eqn:Hz; [lia|].
  apply Z.eqb_neq in Hz. lia.
Qed.

(** X2. The progress bar is at 0 while nothing is answered (also with an
    empty question list), and at 100 once the answered ids are exactly
    the ids of the questions, these being distinct. *)
Theorem progress_ends (st : State) (qs : list Question) :
  test st ≫= questions = Some qs ->
  Z.of_nat (length qs) < 2 ^ 53 ->
  (answers st = ∅ -> progress st = JS.of_Z 0)
  /\ (qs <> [] ->
      NoDup (List.map q_id qs) ->
      dom (answers st) = list_to_set (List.map q_id qs) ->
      progress st = JS.of_Z 100).
Proof.
  intros Hqs Hlen. split.
  - intros Hempty. unfold progress. rewrite Hempty, map_size_empty.
    pose proof (lengthOrOne_bounds st) as Hb.
    assert (lengthOrOne st < 2 ^ 53) as Hup.
    { unfold lengthOrOne. rewrite Hqs. destruct (Z.of_nat (length qs) =? 0); lia. }
    change (Z.of_nat 0) with 0. apply NumberFacts.percentage_none. lia.
  - intros Hne Hnd Hdom.
    assert (0 < Z.of_nat (length qs)) as Hpos.
    { destruct qs; [congruence | cbn [length]; lia]. }
    unfold progress. rewrite (lengthOrOne_loaded st qs Hqs Hpos).
    assert (size (answers st) = length qs) as Hsize.
    { rewrite <- size_dom, Hdom, size_list_to_set by exact Hnd.
      apply length_map. }
    rewrite Hsize. apply NumberFacts.percentage_full. lia.
Qed.

Lemma progress_ends_witness :
  progress FlowExamples.perfectState = JS.of_Z 100.
Proof.
  refine (proj2 (progress_ends FlowExamples.perfectState
                   Examples.Exam.sampleQuestions eq_refl _) _ _ _).
  - vm_compute. reflexivity.
  - discriminate.
  - apply NoDup_ListNoDup. vm_compute.
    repeat (constructor; [cbn; intuition discriminate|]). constructor.
  - apply set_eq. intros k. rewrite elem_of_dom. vm_compute List.map.
    rewrite !elem_of_list_to_set, !elem_of_cons, elem_of_nil.
    unfold FlowExamples.perfectState. cbn [answers].
    split.
    + intros [v Hv].
      destruct (decide (k = "q1")) as [->|H1]; [now left|].
      destruct (decide (k = "q2")) as [->|H2]; [right; now left|].
      destruct (decide (k = "q3")) as [->|H3]; [right; right; now left|].
      rewrite !lookup_insert_ne, lookup_empty in Hv by congruence. discriminate.
    + intros [->|[->|[->|[]]]]; vm_compute; eauto.
Defined.

Lemma clicks_snoc (cs : list Click) (c : Click) (st : State) :
  clicks (cs ++ [c]) st = click c (clicks cs st).
Proof. unfold clicks. now rewrite foldl_app. Qed.

Lemma click_keeps (c : Click) (st : State) :
  test (click c st) = test st /\ answers (click c st) = answers st
  /\ student (click c st) = student st.
Proof.
  destruct c; cbn [click]; unfold clickPrevious, clickNext.
  - destruct (currentQIndex st =? 0); auto.
  - destruct (test st ≫= questions) as [qs|]; auto.
    destruct (currentQIndex st <? Z.of_nat (length qs) - 1); auto.
Qed.

Lemma click_in_range (c : Click) (st : State) (qs : list Question) :
  test st ≫= questions = Some qs ->
  0 <= currentQIndex st < Z.of_nat (length qs) ->
  0 <= currentQIndex (click c st) < Z.of_nat (length qs).
Proof.
  intros Hqs Hidx. destruct c; cbn [click]; unfold clickPrevious, clickNext.
  - destruct (currentQIndex st =? 0); cbn [set_currentQIndex currentQIndex]; lia.
  - rewrite Hqs.
    destruct (currentQIndex st <? Z.of_nat (length qs) - 1);
      cbn [set_currentQIndex currentQIndex]; lia.
Qed.

(** X3. Starting on a question of a loaded, non-empty list, any sequence
    of clicks on the previous and next buttons leaves the index on a
    question of the list: the current question is always defined, and
    neither the test nor the answers change. *)
Theorem navigation_stays_on_a_question (cs : list Click) (st : State) (qs : list Question) :
  test st ≫= questions = Some qs ->
  0 <= currentQIndex st < Z.of_nat (length qs) ->
  0 <= currentQIndex (clicks cs st) < Z.of_nat (length qs)
  /\ is_Some (currentQuestion (clicks cs st))
  /\ test (clicks cs st) = test st
  /\ answers (clicks cs st) = answers st.
Proof.
  intros Hqs Hidx.
  assert (0 <= currentQIndex (clicks cs st) < Z.of_nat (length qs)
          /\ test (clicks cs st) = test st
          /\ answers (clicks cs st) = answers st) as (Hr & Ht & Ha).
  { induction cs as [|c cs IH] using rev_ind.
    - cbn. auto.
    - rewrite clicks_snoc. destruct IH as (Hr & Ht & Ha).
      destruct (click_keeps c (clicks cs st)) as (Ht' & Ha' & _).
      split; [|split; congruence].
      apply click_in_range; [now rewrite Ht|exact Hr]. }
  repeat split; try assumption; try lia.
  unfold currentQuestion. rewrite Ht, Hqs.
  destruct (currentQIndex (clicks cs st) <? 0) eqn:Hneg; [apply Z.ltb_lt in Hneg; lia|].
  apply lookup_lt_is_Some. lia.
Qed.

Lemma navigation_stays_on_a_question_witness :
  is_Some (currentQuestion (clicks [Next; Next; Next; Previous] FlowExamples.readyState)).
Proof.
  refine (proj1 (proj2 (navigation_stays_on_a_question [Next; Next; Next; Previous]
                          FlowExamples.readyState Examples.Exam.sampleQuestions eq_refl _))).
  vm_compute. split; [discriminate | reflexivity].
Defined.

(** X4. Going to the next question and back, or back and forth, returns
    to the same state, whenever the first of the two buttons is
    available. *)
Theorem next_previous_round_trip (st : State) :
  0 <= currentQIndex st ->
  (nextShown st = true -> clickPrevious (clickNext st) = st)
  /\ (currentQIndex st <> 0 ->
      (exists qs, test st ≫= questions = Some qs
                  /\ currentQIndex st < Z.of_nat (length qs)) ->
      clickNext (clickPrevious st) = st).
Proof.
  intros Hidx. destruct st as [t stu ld sub ans idx]. cbn [currentQIndex] in Hidx.
  unfold nextShown, clickNext, clickPrevious, set_currentQIndex.
  cbn [test student loading submitting answers currentQIndex].
  split.
  - destruct (t ≫= questions) as [qs|]; [|discriminate].
    intros Hlt. rewrite Hlt. apply Z.ltb_lt in Hlt.
    cbn [currentQIndex test student loading submitting answers].
    destruct (Z.min (Z.of_nat (length qs) - 1) (idx + 1) =? 0) eqn:Hz;
      [apply Z.eqb_eq in Hz; lia|].
    f_equal. lia.
  - intros Hnz (qs & Hqs & Hlt).
    destruct (idx =? 0) eqn:Hz; [apply Z.eqb_eq in Hz; lia|].
    cbn [currentQIndex test student loading submitting answers].
    rewrite Hqs.
    replace (Z.max 0 (idx - 1) <? Z.of_nat (length qs) - 1) with true
      by (symmetry; apply Z.ltb_lt; lia).
    cbn [currentQIndex test student loading submitting answers].
    f_equal. lia.
Qed.

Lemma next_previous_round_trip_witness :
  clickPrevious (clickNext FlowExamples.readyState) = FlowExamples.readyState.
Proof.
  refine (proj1 (next_previous_round_trip FlowExamples.readyState _) _).
  - vm_compute. discriminate.
  - vm_compute. reflexivity.
Defined.

(** X5. The last selection for a question is the one that counts, and
    the order in which two different questions are answered does not
    matter: the states, and so the results of calculateScore, are the
    same. *)
Theorem selections_compose (q1 q2 o1 o2 : string) (st : State) :
  handleSelectOption q1 o2 (handleSelectOption q1 o1 st) = handleSelectOption q1 o2 st
  /\ (q1 <> q2 ->
      handleSelectOption q1 o1 (handleSelectOption q2 o2 st)
      = handleSelectOption q2 o2 (handleSelectOption q1 o1 st)
      /\ calculateScore (handleSelectOption q1 o1 (handleSelectOption q2 o2 st))
         = calculateScore (handleSelectOption q2 o2 (handleSelectOption q1 o1 st))).
Proof.
  unfold handleSelectOption, set_answers. cbn [test student loading submitting answers currentQIndex].
  split.
  - now rewrite insert_insert_eq.
  - intros Hne.
    assert (<[q1:=o1]> (<[q2:=o2]> (answers st)) = <[q2:=o2]> (<[q1:=o1]> (answers st))) as Hc
      by (now apply insert_insert_ne).
    rewrite Hc. split; reflexivity.
Qed.

Lemma selections_compose_witness :
  handleSelectOption "q1" "opt-a" (handleSelectOption "q3" "opt-b" FlowExamples.readyState)
  = handleSelectOption "q3" "opt-b" (handleSelectOption "q1" "opt-a" FlowExamples.readyState).
Proof.
  refine (proj1 (proj2 (selections_compose "q1" "q3" "opt-a" "opt-b"
                          FlowExamples.readyState) _)).
  discriminate.
Defined.

(** X6. Selecting an option for one question changes the graded answer
    of no question with another id. *)
Theorem selection_leaves_other_grades
    (qid oid : string) (st : State) (qs : list Question) (i : nat) (q : Question) :
  test st ≫= questions = Some qs ->
  qs !! i = Some q ->
  q_id q <> qid ->
  gradedAnswers (calculateScore (handleSelectOption qid oid st)) !! i
  = gradedAnswers (calculateScore st) !! i.
Proof.
  intros Hqs Hq Hne.
  rewrite (ExamRoomFacts.calculateScore_loaded st qs Hqs).
  rewrite (ExamRoomFacts.calculateScore_loaded (handleSelectOption qid oid st) qs Hqs).
  cbn zeta. cbn [gradedAnswers].
  rewrite !(ExamRoomFacts.gradeFrom_lookup _ qs 0 i q Hq).
  f_equal. unfold grade, handleSelectOption, set_answers. cbn [answers].
  now rewrite lookup_insert_ne by congruence.
Qed.

Lemma selection_leaves_other_grades_witness :
  gradedAnswers (calculateScore (handleSelectOption "q3" "opt-b" FlowExamples.readyState)) !! 0%nat
  = gradedAnswers (calculateScore FlowExamples.readyState) !! 0%nat.
Proof.
  refine (selection_leaves_other_grades "q3" "opt-b" FlowExamples.readyState
            Examples.Exam.sampleQuestions 0 (Examples.Exam.question "q1") eq_refl eq_refl _).
  discriminate.
Defined.

(** X7. After an option id is selected for a question, that question is
    graded correct exactly when the id is the id of its option marked
    is_correct; the graded answer reports the selected id unless it is
    the empty string. *)
Theorem selection_is_graded
    (oid : string) (st : State) (qs : list Question) (i : nat) (q : Question) :
  test st ≫= questions = Some qs ->
  qs !! i = Some q ->
  exists g,
    gradedAnswers (calculateScore (handleSelectOption (q_id q) oid st)) !! i = Some g
    /\ (isCorrect g = true <-> exists o, markedCorrect q o /\ oid = o_id o)
    /\ (oid <> "" -> selectedOptionId g = Some oid)
    /\ (oid = "" -> selectedOptionId g = None).
Proof.
  intros Hqs Hq.
  rewrite (ExamRoomFacts.calculateScore_loaded (handleSelectOption (q_id q) oid st) qs Hqs).
  cbn zeta. cbn [gradedAnswers].
  eexists. split; [exact (ExamRoomFacts.gradeFrom_lookup _ qs 0 i q Hq)|].
  split; [|split].
  - rewrite ExamRoomFacts.isCorrect_grade, ExamRoomFacts.countsAsCorrect_iff.
    unfold selectedCorrectly, handleSelectOption, set_answers. cbn [answers].
    rewrite lookup_insert_eq. split.
    + intros (sel & o & [= <-] & Hm & Heq). eauto.
    + intros (o & Hm & Heq). eauto.
  - intros Hne. unfold grade, handleSelectOption, set_answers.
    cbn [answers selectedOptionId]. rewrite lookup_insert_eq. cbn [JS.or_null].
    rewrite bool_decide_eq_false_2 by assumption. reflexivity.
  - intros ->. unfold grade, handleSelectOption, set_answers.
    cbn [answers selectedOptionId]. rewrite lookup_insert_eq. reflexivity.
Qed.

Lemma selection_is_graded_witness :
  exists g,
    gradedAnswers (calculateScore (handleSelectOption "q3" "opt-b" FlowExamples.readyState))
      !! 2%nat = Some g
    /\ isCorrect g = true.
Proof.
  destruct (selection_is_graded "opt-b" FlowExamples.readyState
              Examples.Exam.sampleQuestions 2 (Examples.Exam.question "q3") eq_refl eq_refl)
    as (g & Hg & Hiff & _).
  exists g. split; [exact Hg|]. apply Hiff.
  exists Examples.Exam.optB. split; [|reflexivity].
  exists [Examples.Exam.optA], []. repeat split. repeat constructor.
Defined.

Import ExamFlowSpec.

Lemma handleSubmit_not_ready (w : SubmitWorld) (releaseId : string) (st : State) :
  ~ ready w st -> handleSubmit w releaseId st = (st, [AskConfirm]).
Proof.
  unfold ready, handleSubmit. intros Hnot.
  destruct (confirmed w); cbn [negb]; [|reflexivity].
  destruct (test st) as [t|]; [|reflexivity].
  destruct (student st) as [stu|]; [|reflexivity].
  destruct (hasClient w); [|reflexivity].
  exfalso. apply Hnot. repeat split; eauto.
Qed.

Lemma handleSubmit_ready (w : SubmitWorld) (releaseId : string) (st : State) :
  ready w st ->
  exists t stu,
    test st = Some t /\ student st = Some stu
    /\ fst (handleSubmit w releaseId st) = set_submitting false st
    /\ snd (handleSubmit w releaseId st)
       = let r := calculateScore st in
         let started := [AskConfirm; SetSubmitting true;
                         InsertTestResult (resultRow w releaseId t stu r)] in
         match insertResult w with
         | InsertError message => started ++ submitFailed message
         | Inserted resultId =>
             let sent := started ++ [InsertAnswers resultId (answerPayload r)] in
             match insertAnswersError w with
             | Some message => sent ++ submitFailed message
             | None =>
                 let logged := sent ++ [InsertAttemptLog (attemptLog w releaseId r)] in
                 match insertLogRejects w with
                 | Some message => logged ++ submitFailed message
                 | None =>
                     logged ++ [Alert (SubmitSent (score r)); OnComplete; SetSubmitting false]
                 end
             end
         end.
Proof.
  intros (Hc & [t Ht] & [stu Hs] & Hcl). exists t, stu.
  unfold handleSubmit. rewrite Hc, Ht, Hs, Hcl. cbn [negb fst snd]. auto.
Qed.

Lemma classic_ready (w : SubmitWorld) (st : State) : ready w st \/ ~ ready w st.
Proof.
  unfold ready. destruct (confirmed w); [|right; intros (H & _); discriminate].
  destruct (test st); [|right; intros (_ & [? H] & _); discriminate].
  destruct (student st); [|right; intros (_ & _ & [? H] & _); discriminate].
  destruct (hasClient w); [|right; intros (_ & _ & _ & H); discriminate].
  left. repeat split; eauto.
Qed.

Ltac members_in H :=
  cbn [app] in H; rewrite ?elem_of_app, ?elem_of_cons, ?elem_of_nil in H.

(** X8. handleSubmit sends nothing and changes nothing unless the user
    confirmed and a test, a student and a client are at hand; on every
    path it leaves the test, the student, the answers and the index as
    they were, and once past that gate it ends with submitting false. *)
Theorem handleSubmit_gate (w : SubmitWorld) (releaseId : string) (st : State) :
  (~ ready w st ->
   fst (handleSubmit w releaseId st) = st
   /\ forall e, e ∈ snd (handleSubmit w releaseId st) -> ~ leavesRoom e)
  /\ (ready w st -> submitting (fst (handleSubmit w releaseId st)) = false)
  /\ test (fst (handleSubmit w releaseId st)) = test st
  /\ student (fst (handleSubmit w releaseId st)) = student st
  /\ answers (fst (handleSubmit w releaseId st)) = answers st
  /\ currentQIndex (fst (handleSubmit w releaseId st)) = currentQIndex st.
Proof.
  split; [|split].
  - intros Hnot. rewrite (handleSubmit_not_ready w releaseId st Hnot). cbn [fst snd].
    split; [reflexivity|]. intros e He. members_in He.
    destruct He as [->|[]]. cbn. tauto.
  - intros Hr. destruct (handleSubmit_ready w releaseId st Hr) as (t & stu & _ & _ & -> & _).
    reflexivity.
  - destruct (classic_ready w st) as [Hr|Hnot].
    + destruct (handleSubmit_ready w releaseId st Hr) as (t & stu & _ & _ & -> & _).
      repeat split; reflexivity.
    + rewrite (handleSubmit_not_ready w releaseId st Hnot). repeat split; reflexivity.
Qed.

Lemma handleSubmit_gate_witness :
  submitting (fst (handleSubmit FlowExamples.smoothWorld "rel-1" FlowExamples.readyState)) = false
  /\ fst (handleSubmit FlowExamples.smoothWorld "rel-1" Examples.Exam.sampleState)
     = Examples.Exam.sampleState.
Proof.
  split.
  - refine (proj1 (proj2 (handleSubmit_gate FlowExamples.smoothWorld "rel-1"
                            FlowExamples.readyState)) _).
    repeat split; eauto.
  - refine (proj1 (proj1 (handleSubmit_gate FlowExamples.smoothWorld "rel-1"
                            Examples.Exam.sampleState) _)).
    intros (_ & _ & [stu Hstu] & _). discriminate.
Defined.

(** X9. Past the gate, the result row is always sent; the answer rows
    are sent exactly when that insert returned a row, and then under its
    id; the attempt log exactly when the answer rows were also accepted;
    onComplete is called, and the score announced, exactly when the log
    insert did not reject either. Every other path ends in the failure
    alert with the message of the error. *)
Theorem handleSubmit_steps (w : SubmitWorld) (releaseId : string) (st : State) :
  ready w st ->
  let effs := snd (handleSubmit w releaseId st) in
  (exists row, InsertTestResult row ∈ effs)
  /\ (forall rid rows, InsertAnswers rid rows ∈ effs <->
        insertResult w = Inserted rid /\ rows = answerPayload (calculateScore st))
  /\ ((exists log, InsertAttemptLog log ∈ effs) <->
      (exists rid, insertResult w = Inserted rid) /\ insertAnswersError w = None)
  /\ (OnComplete ∈ effs <->
      (exists rid, insertResult w = Inserted rid) /\ insertAnswersError w = None
      /\ insertLogRejects w = None)
  /\ (OnComplete ∈ effs <-> Alert (SubmitSent (score (calculateScore st))) ∈ effs)
  /\ (OnComplete ∉ effs ->
      exists message, Alert (SubmitFailed ("Falha ao enviar prova: " ++ message)) ∈ effs
        /\ (insertResult w = InsertError message
            \/ insertAnswersError w = Some message
            \/ insertLogRejects w = Some message)).
Proof.
  intros Hr effs. subst effs.
  destruct (handleSubmit_ready w releaseId st Hr) as (t & stu & _ & _ & _ & ->).
  cbn zeta. unfold submitFailed.
  destruct (insertResult w) as [rid0|msg0];
    [destruct (insertAnswersError w) as [msg1|];
     [|destruct (insertLogRejects w) as [msg2|]]|].
  all: split; [eexists; cbn [app]; rewrite ?elem_of_cons; eauto|].
  all: split; [intros rid rows; cbn [app];
               rewrite ?elem_of_cons, ?elem_of_nil;
               split; [intros H; repeat (destruct H as [H|H]; try discriminate);
                       try contradiction; try (injection H as -> ->; auto)
                      |intros [[= ->] ->]; eauto 10]|].
  all: split; [split; [intros [log H]; cbn [app] in H;
                       rewrite ?elem_of_cons, ?elem_of_nil in H;
                       repeat (destruct H as [H|H]; try discriminate);
                       try contradiction; eauto
                      |intros [[rid [=]] [=]]; subst; eexists; cbn [app];
                       rewrite ?elem_of_cons; eauto 10]|].
  all: split; [split; [intros H; cbn [app] in H;
                       rewrite ?elem_of_cons, ?elem_of_nil in H;
                       repeat (destruct H as [H|H]; try discriminate);
                       try contradiction; eauto
                      |intros ([rid [=]] & [=] & [=]); cbn [app];
                       rewrite ?elem_of_cons; eauto 10]|].
  all: split; [split; intros H; cbn [app] in H |- *;
               rewrite ?elem_of_cons, ?elem_of_nil in H |- *;
               repeat (destruct H as [H|H]; try discriminate);
               try contradiction; eauto 10|].
  all: intros Hno; cbn [app] in Hno |- *.
  all: try (exfalso; apply Hno; rewrite ?elem_of_cons; now eauto 10).
  all: eexists; split; [rewrite ?elem_of_cons; eauto 10|eauto].
Qed.

Lemma handleSubmit_steps_witness :
  OnComplete ∈ snd (handleSubmit FlowExamples.smoothWorld "rel-1" FlowExamples.readyState).
Proof.
  refine (proj2 (proj1 (proj2 (proj2 (proj2 (handleSubmit_steps FlowExamples.smoothWorld "rel-1"
            FlowExamples.readyState _))))) _).
  - repeat split; eauto.
  - repeat split; eauto.
Defined.

Lemma handleSubmit_steps_rows (w : SubmitWorld) (releaseId : string) (st : State)
    (rid : string) (rows : list AnswerRow) :
  ready w st ->
  InsertAnswers rid rows ∈ snd (handleSubmit w releaseId st) ->
  rows = answerPayload (calculateScore st).
Proof.
  intros Hr Hin.
  destruct (handleSubmit_ready w releaseId st Hr) as (t & stu & _ & _ & _ & Heff).
  rewrite Heff in Hin. cbn zeta in Hin. unfold submitFailed in Hin.
  destruct (insertResult w); [destruct (insertAnswersError w);
    [|destruct (insertLogRejects w)]|];
    members_in Hin; repeat (destruct Hin as [Hin|Hin]; try discriminate);
    try contradiction; now injection Hin.
Qed.

Lemma payload_rowsCorrect (r : ScoreResult) :
  rowsCorrect (answerPayload r) = countTrue (gradedAnswers r)
  /\ rowsWrong (answerPayload r) = countFalse (gradedAnswers r).
Proof.
  unfold rowsCorrect, rowsWrong, countTrue, countFalse, answerPayload.
  induction (gradedAnswers r) as [|g rest [IH1 IH2]]; [split; reflexivity|].
  cbn [List.map List.filter is_correct].
  destruct (isCorrect g); cbn [negb length]; rewrite ?Nat2Z.inj_succ; split; lia.
Qed.

(** X10. The result row and the answer rows of one submission agree:
    correct_count is the number of answer rows marked correct,
    error_count the number of the others, their sum the number of rows,
    and the rows carry the ids of the loaded questions in order. *)
Theorem handleSubmit_header_matches_rows
    (w : SubmitWorld) (releaseId : string) (st : State)
    (header : ResultRow) (rid : string) (rows : list AnswerRow) :
  InsertTestResult header ∈ snd (handleSubmit w releaseId st) ->
  InsertAnswers rid rows ∈ snd (handleSubmit w releaseId st) ->
  rr_correct_count header = rowsCorrect rows
  /\ rr_error_count header = rowsWrong rows
  /\ rr_correct_count header + rr_error_count header = Z.of_nat (length rows)
  /\ List.map question_id rows = List.map q_id (default [] (test st ≫= questions))
  /\ rr_test_release_id header = releaseId.
Proof.
  intros Hh Hrows.
  destruct (classic_ready w st) as [Hr|Hnot].
  2:{ rewrite (handleSubmit_not_ready w releaseId st Hnot) in Hh. cbn [snd] in Hh.
      members_in Hh. destruct Hh as [[=]|[]]. }
  pose proof (handleSubmit_steps_rows w releaseId st rid rows Hr Hrows) as ->.
  destruct (handleSubmit_ready w releaseId st Hr) as (t & stu & _ & _ & _ & Heff).
  rewrite Heff in Hh. cbn zeta in Hh. unfold submitFailed in Hh.
  assert (header = resultRow w releaseId t stu (calculateScore st)) as ->.
  { destruct (insertResult w); [destruct (insertAnswersError w);
      [|destruct (insertLogRejects w)]|];
      members_in Hh; repeat (destruct Hh as [Hh|Hh]; try discriminate);
      try contradiction; now injection Hh. }
  unfold resultRow. cbn [rr_correct_count rr_error_count rr_test_release_id].
  destruct (payload_rowsCorrect (calculateScore st)) as [-> ->].
  destruct (ExamRoomFacts.calculateScore_tallies st) as [Hc He].
  pose proof (ExamRoomFacts.countTrue_countFalse (gradedAnswers (calculateScore st))) as Hsum.
  unfold answerPayload at 1. rewrite length_map.
  repeat split; try assumption; try lia.
  unfold answerPayload. rewrite List.map_map. cbn [question_id].
  destruct (test st ≫= questions) as [qs|] eqn:Hqs.
  - rewrite (ExamRoomFacts.calculateScore_loaded st qs Hqs). cbn zeta. cbn [gradedAnswers default].
    apply ExamRoomFacts.gradeFrom_questionIds.
  - unfold calculateScore. rewrite (ExamRoomFacts.calculateScore_run_unloaded st Hqs).
    reflexivity.
Qed.

Lemma handleSubmit_header_matches_rows_witness :
  exists header rows,
    InsertTestResult header ∈ snd (handleSubmit FlowExamples.smoothWorld "rel-1"
                                     FlowExamples.readyState)
    /\ rr_correct_count header = rowsCorrect rows
    /\ rr_correct_count header = 1.
Proof.
  eexists (resultRow FlowExamples.smoothWorld "rel-1" Examples.Exam.sampleTest FlowExamples.ana
             (calculateScore FlowExamples.readyState)),
          (answerPayload (calculateScore FlowExamples.readyState)).
  assert (InsertTestResult
            (resultRow FlowExamples.smoothWorld "rel-1" Examples.Exam.sampleTest
               FlowExamples.ana (calculateScore FlowExamples.readyState))
          ∈ snd (handleSubmit FlowExamples.smoothWorld "rel-1" FlowExamples.readyState)) as Hh.
  { cbn. rewrite !elem_of_cons. auto. }
  assert (InsertAnswers "res-9" (answerPayload (calculateScore FlowExamples.readyState))
          ∈ snd (handleSubmit FlowExamples.smoothWorld "rel-1" FlowExamples.readyState)) as Hr.
  { cbn. rewrite !elem_of_cons. auto. }
  split; [exact Hh|].
  split.
  - exact (proj1 (handleSubmit_header_matches_rows _ _ _ _ _ _ Hh Hr)).
  - vm_compute. reflexivity.
Defined.

End ExamFlowFacts.

(** ** The dashboard: countdown, lists and data fetch *)

Module DashboardDataFacts.
Import Dashboard DashboardSpec DashboardData DashboardDataSpec.

Section WithDates.

Variable parseDate : string -> option Z.

(** X11. getTimeUntil answers null exactly for a valid date that is not
    after now; for a date that does not parse it answers the text
    "NaNm". *)
Theorem getTimeUntil_null (now : Z) (dateStr : string) :
  (getTimeUntil parseDate now dateStr = None
   <-> exists t, parseDate dateStr = Some t /\ t <= now)
  /\ (parseDate dateStr = None -> getTimeUntil parseDate now dateStr = Some "NaNm").
Proof.
  unfold getTimeUntil. destruct (parseDate dateStr) as [t|]; cbn.
  - split; [|discriminate].
    destruct (t - now <=? 0) eqn:Hle.
    + apply Z.leb_le in Hle. split; [intros _; exists t; split; [reflexivity|lia]|reflexivity].
    + apply Z.leb_gt in Hle. split.
      * repeat match goal with
               | |- context [if ?b then _ else _] => destruct b
               end; discriminate.
      * intros (t' & [= <-] & Ht). lia.
  - split; [|reflexivity]. split; [discriminate|intros (t & [=] & _)].
Qed.

Lemma getTimeUntil_parts (now : Z) (dateStr : string) (t : Z) :
  parseDate dateStr = Some t ->
  now < t ->
  exists d h m,
    0 <= d /\ 0 <= h < 24 /\ 0 <= m < 60
    /\ d * 86400000 + h * 3600000 + m * 60000 <= t - now
       < d * 86400000 + h * 3600000 + m * 60000 + 60000
    /\ getTimeUntil parseDate now dateStr = Some (countdownText d h m).
Proof.
  intros Hp Hlt. unfold getTimeUntil. rewrite Hp. cbn.
  replace (t - now <=? 0) with false by (symmetry; apply Z.leb_gt; lia).
  rewrite !Z.rem_mod_nonneg by lia.
  exists ((t - now) / 86400000), ((t - now) mod 86400000 / 3600000),
         ((t - now) mod 3600000 / 60000).
  split; [|split; [|split; [|split]]].
  - apply Z.div_pos; lia.
  - Z.to_euclidean_division_equations. lia.
  - Z.to_euclidean_division_equations. lia.
  - Z.to_euclidean_division_equations. lia.
  - unfold countdownText.
    change (1000 * 60 * 60 * 24) with 86400000.
    change (1000 * 60 * 60) with 3600000.
    change (1000 * 60) with 60000.
    repeat match goal with
           | |- context [if ?b then _ else _] => destruct b
           end; reflexivity.
Qed.


Lemma statusAt_completed_iff (results : list TestResult) (now : Z) (r : TestRelease) :
  statusAt parseDate results now r = completed <-> hasResult results r.
Proof.
  pose proof (DashboardFacts.some_hasResult results r) as Hres.
  unfold statusAt.
  destruct (JS.some _ results).
  - split; [intros _; now apply Hres | reflexivity].
  - split.
    + destruct (JS.lt _ _); [discriminate|]. destruct (JS.gt _ _); discriminate.
    + intros H. apply Hres in H. discriminate.
Qed.

Lemma statusAt_upcoming (results : list TestResult) (now : Z) (r : TestRelease) :
  statusAt parseDate results now r = upcoming ->
  exists t, parseDate (start_time r) = Some t /\ now < t.
Proof.
  unfold statusAt. destruct (JS.some _ results); [discriminate|].
  destruct (JS.lt (Some now) (parseDate (start_time r))) eqn:Hlt.
  - intros _. now apply DashboardFacts.lt_nowBefore in Hlt.
  - destruct (JS.gt _ _); discriminate.
Qed.

Lemma statusAt_expired (results : list TestResult) (now : Z) (r : TestRelease) :
  statusAt parseDate results now r = expired ->
  exists t, parseDate (end_time r) = Some t /\ t < now.
Proof.
  unfold statusAt. destruct (JS.some _ results); [discriminate|].
  destruct (JS.lt _ _); [discriminate|].
  destruct (JS.gt (Some now) (parseDate (end_time r))) eqn:Hgt; [|discriminate].
  intros _. now apply DashboardFacts.gt_nowAfter in Hgt.
Qed.

Section WithClock.

Variable clock : nat -> Z.

(** A member of a pass over the releases is a release that had the
    status at one of the readings of the clock. *)
Lemma filterStatus_elem
    (results : list TestResult) (s : Status) (l : list TestRelease) (k : nat) (r : TestRelease) :
  r ∈ fst (filterStatus parseDate clock results s l k) ->
  r ∈ l /\ exists j, statusAt parseDate results (clock j) r = s.
Proof.
  revert k. induction l as [|x xs IH]; intros k; cbn [filterStatus].
  - cbn. intros H. now apply elem_of_nil in H.
  - unfold getTestStatus.
    destruct (filterStatus parseDate clock results s xs (S k)) as [rest k2] eqn:Hrest.
    cbn [fst].
    destruct (bool_decide (statusAt parseDate results (clock k) x = s)) eqn:Hs.
    + intros [->|Hin]%elem_of_cons.
      * apply bool_decide_eq_true in Hs. split; [now left | eauto].
      * specialize (IH (S k)). rewrite Hrest in IH. destruct (IH Hin) as [Hl Hj].
        split; [now right | exact Hj].
    + intros Hin. specialize (IH (S k)). rewrite Hrest in IH. destruct (IH Hin) as [Hl Hj].
      split; [now right | exact Hj].
Qed.

(** A release whose status does not depend on the time is kept by the
    pass for that status. *)
Lemma filterStatus_timeless
    (results : list TestResult) (s : Status) (l : list TestRelease) (k : nat) (r : TestRelease) :
  r ∈ l ->
  (forall now, statusAt parseDate results now r = s) ->
  r ∈ fst (filterStatus parseDate clock results s l k).
Proof.
  intros Hin Hs. revert k. induction l as [|x xs IH]; intros k; cbn [filterStatus].
  - now apply elem_of_nil in Hin.
  - unfold getTestStatus.
    destruct (filterStatus parseDate clock results s xs (S k)) as [rest k2] eqn:Hrest.
    cbn [fst].
    apply elem_of_cons in Hin. destruct Hin as [->|Hin].
    + rewrite bool_decide_eq_true_2 by apply Hs. now left.
    + specialize (IH Hin (S k)). rewrite Hrest in IH. cbn [fst] in IH.
      destruct (bool_decide _); [now right | exact IH].
Qed.

Lemma statusLists_elem
    (releases : list TestRelease) (results : list TestResult) (s : Status) (r : TestRelease) :
  r ∈ listOf (statusLists parseDate clock releases results) s ->
  r ∈ releases /\ exists j, statusAt parseDate results (clock j) r = s.
Proof.
  unfold statusLists.
  destruct (filterStatus parseDate clock results active releases 0%nat) as [act k1] eqn:Ha.
  destruct (filterStatus parseDate clock results upcoming releases k1) as [upc k2] eqn:Hu.
  destruct (filterStatus parseDate clock results completed releases k2) as [com k3] eqn:Hc.
  destruct (filterStatus parseDate clock results expired releases k3) as [exp k4] eqn:He.
  destruct s; cbn [listOf activeTests upcomingTests completedTests expiredTests];
    rewrite ?JSFacts.sort_Permutation; intros Hin.
  - apply (filterStatus_elem results completed releases k2). now rewrite Hc.
  - apply (filterStatus_elem results upcoming releases k1). now rewrite Hu.
  - apply (filterStatus_elem results expired releases k3). now rewrite He.
  - apply (filterStatus_elem results active releases 0%nat). now rewrite Ha.
Qed.

(** X13. Whatever the clock does during the render, the completed list
    holds exactly the fetched releases for which a result exists, and
    such a release is in none of the other three lists: a test that was
    handed in is never offered again. *)
Theorem completed_list_ignores_time
    (releases : list TestRelease) (results : list TestResult) (r : TestRelease) :
  let lists := statusLists parseDate clock releases results in
  (r ∈ completedTests lists <-> r ∈ releases /\ hasResult results r)
  /\ (hasResult results r ->
      (r ∉ activeTests lists) /\ (r ∉ upcomingTests lists) /\ (r ∉ expiredTests lists)).
Proof.
  cbn zeta. split; [split|].
  - intros Hin. destruct (statusLists_elem releases results completed r Hin) as [Hl [j Hj]].
    split; [exact Hl|]. now apply statusAt_completed_iff in Hj.
  - intros [Hl Hres]. unfold statusLists.
    destruct (filterStatus parseDate clock results active releases 0%nat) as [act k1].
    destruct (filterStatus parseDate clock results upcoming releases k1) as [upc k2].
    destruct (filterStatus parseDate clock results completed releases k2) as [com k3] eqn:Hc.
    destruct (filterStatus parseDate clock results expired releases k3) as [exp k4].
    cbn [completedTests].
    pose proof (filterStatus_timeless results completed releases k2 r Hl) as Hin.
    rewrite Hc in Hin. apply Hin. intros now. now apply statusAt_completed_iff.
  - intros Hres.
    assert (forall s, s <> completed ->
              r ∉ listOf (statusLists parseDate clock releases results) s) as Hnot.
    { intros s Hs Hin. destruct (statusLists_elem releases results s r Hin) as [_ [j Hj]].
      apply Hs. rewrite <- Hj. now apply statusAt_completed_iff. }
    repeat split.
    + apply (Hnot active). discriminate.
    + apply (Hnot upcoming). discriminate.
    + apply (Hnot expired). discriminate.
Qed.

(** X14. Whatever the clock does, a release whose start_time does not
    parse is never listed as upcoming and one whose end_time does not
    parse is never listed as expired; every upcoming release has a
    countdown to its start at the reading that made it upcoming. *)
Theorem unreadable_dates
    (releases : list TestRelease) (results : list TestResult) (r : TestRelease) :
  let lists := statusLists parseDate clock releases results in
  (parseDate (start_time r) = None -> r ∉ upcomingTests lists)
  /\ (parseDate (end_time r) = None -> r ∉ expiredTests lists)
  /\ (r ∈ upcomingTests lists ->
      exists j d h m,
        getTimeUntil parseDate (clock j) (start_time r) = Some (countdownText d h m)).
Proof.
  cbn zeta. split; [|split].
  - intros Hnone Hin.
    destruct (statusLists_elem releases results upcoming r Hin) as [_ [j Hj]].
    destruct (statusAt_upcoming results (clock j) r Hj) as (t & Ht & _). congruence.
  - intros Hnone Hin.
    destruct (statusLists_elem releases results expired r Hin) as [_ [j Hj]].
    destruct (statusAt_expired results (clock j) r Hj) as (t & Ht & _). congruence.
  - intros Hin.
    destruct (statusLists_elem releases results upcoming r Hin) as [_ [j Hj]].
    destruct (statusAt_upcoming results (clock j) r Hj) as (t & Ht & Hlt).
    destruct (getTimeUntil_parts (clock j) (start_time r) t Ht Hlt)
      as (d & h & m & _ & _ & _ & _ & Hres).
    exists j, d, h, m. exact Hres.
Qed.

Lemma sort_insert_by_start (x : TestRelease) (l : list TestRelease) :
  is_Some (parseDate (start_time x)) ->
  Forall (fun y => is_Some (parseDate (start_time y))) l ->
  StronglySorted (startsNoLater parseDate) l ->
  StronglySorted (startsNoLater parseDate) (JS.sort_insert (compareStart parseDate) x l).
Proof.
  intros [kx Hx] Hvalid Hsorted. induction Hsorted as [|y ys Hys IH Hall]; cbn [JS.sort_insert].
  - repeat constructor.
  - apply Forall_cons in Hvalid. destruct Hvalid as [[ky Hy] Hvalid].
    unfold compareStart at 1. rewrite Hx, Hy. cbn [JS.minus JS.goes_after].
    destruct (0 <? kx - ky) eqn:Hcmp.
    + apply Z.ltb_lt in Hcmp. constructor; [now apply IH|].
      rewrite (JSFacts.sort_insert_Permutation (compareStart parseDate) x ys).
      constructor; [exists ky, kx; repeat split; auto; lia | exact Hall].
    + apply Z.ltb_ge in Hcmp.
      assert (startsNoLater parseDate x y) as Hxy by (exists kx, ky; repeat split; auto; lia).
      constructor; [constructor; assumption|].
      constructor; [exact Hxy|].
      eapply Forall_impl; [exact Hall|].
      intros z (ky' & kz & Hy' & Hz & Hle). exists kx, kz.
      repeat split; auto. rewrite Hy in Hy'. injection Hy' as <-. lia.
Qed.

Lemma sort_by_start (l : list TestRelease) :
  Forall (fun y => is_Some (parseDate (start_time y))) l ->
  StronglySorted (startsNoLater parseDate) (JS.sort (compareStart parseDate) l).
Proof.
  unfold JS.sort. induction 1 as [|x xs Hx Hxs IH]; cbn [foldr]; [constructor|].
  apply sort_insert_by_start; [exact Hx| |exact IH].
  fold (JS.sort (compareStart parseDate) xs).
  now rewrite JSFacts.sort_Permutation.
Qed.

(** X15. The upcoming list is in ascending order of start time,
    whatever the clock does during the render: every release in it has a
    start_time that parses, so the comparator never yields NaN. *)
Theorem upcoming_sorted_by_start
    (releases : list TestRelease) (results : list TestResult) :
  StronglySorted (startsNoLater parseDate)
    (upcomingTests (statusLists parseDate clock releases results)).
Proof.
  pose proof (fun r => statusLists_elem releases results upcoming r) as Helem.
  unfold statusLists in *.
  destruct (filterStatus parseDate clock results active releases 0%nat) as [act k1].
  destruct (filterStatus parseDate clock results upcoming releases k1) as [upc k2].
  destruct (filterStatus parseDate clock results completed releases k2) as [com k3].
  destruct (filterStatus parseDate clock results expired releases k3) as [exp k4].
  cbn [listOf upcomingTests] in *.
  apply sort_by_start. apply Forall_forall. intros r Hin.
  rewrite <- (JSFacts.sort_Permutation (compareStart parseDate)) in Hin.
  destruct (Helem r Hin) as [_ [j Hj]].
  destruct (statusAt_upcoming results (clock j) r Hj) as (t & Ht & _). eauto.
Qed.

Lemma filter_by_status_lengths (f : TestRelease -> Status) (l : list TestRelease) :
  (length (List.filter (fun r => bool_decide (f r = active)) l)
   + length (List.filter (fun r => bool_decide (f r = upcoming)) l)
   + length (List.filter (fun r => bool_decide (f r = completed)) l)
   + length (List.filter (fun r => bool_decide (f r = expired)) l))%nat
  = length l.
Proof.
  induction l as [|r rest IH]; [reflexivity|].
  cbn [List.filter]. destruct (f r);
    repeat case_bool_decide; try congruence; cbn [length]; lia.
Qed.

(** X16. With the clock read as one instant during the render, the four
    lists together have as many entries as there are fetched releases. *)
Theorem list_sizes_add_up
    (now : Z) (releases : list TestRelease) (results : list TestResult) :
  (forall j, clock j = now) ->
  let lists := statusLists parseDate clock releases results in
  (length (activeTests lists) + length (upcomingTests lists)
   + length (completedTests lists) + length (expiredTests lists))%nat
  = length releases.
Proof.
  intros Hclock. cbn zeta. unfold statusLists.
  rewrite !(DashboardFacts.filterStatus_frozen parseDate clock now) by assumption.
  cbn [activeTests upcomingTests completedTests expiredTests].
  rewrite (Permutation_length (JSFacts.sort_Permutation _ _)).
  apply (filter_by_status_lengths (statusAt parseDate results now)).
Qed.

End WithClock.

End WithDates.

Lemma list_sizes_add_up_witness :
  (length (activeTests Examples.Dash.frozenLists)
   + length (upcomingTests Examples.Dash.frozenLists)
   + length (completedTests Examples.Dash.frozenLists)
   + length (expiredTests Examples.Dash.frozenLists))%nat
  = 4%nat.
Proof.
  refine (list_sizes_add_up Examples.Dash.parseMillis Examples.Dash.frozenClock 3000
            Examples.Dash.sampleReleases Examples.Dash.sampleResults _).
  intros j. reflexivity.
Defined.

Lemma completed_list_ignores_time_witness :
  Examples.Dash.done ∈ completedTests
    (statusLists Examples.Dash.parseMillis Examples.Dash.runningClock
       Examples.Dash.sampleReleases Examples.Dash.sampleResults).
Proof.
  refine (proj2 (proj1 (completed_list_ignores_time Examples.Dash.parseMillis
            Examples.Dash.runningClock Examples.Dash.sampleReleases
            Examples.Dash.sampleResults Examples.Dash.done)) _).
  split.
  - apply list_elem_of_In. cbn. auto 6.
  - exists {| res_id := "res1"; test_release_id := Some "r-done" |}.
    split; [apply list_elem_of_In; cbn; auto | reflexivity].
Defined.

Lemma unreadable_dates_witness :
  Examples.Dash.release "r-odd" "garbled" "garbled"
  ∉ upcomingTests
      (statusLists Examples.Dash.parseMillis Examples.Dash.runningClock
         [Examples.Dash.release "r-odd" "garbled" "garbled"] []).
Proof.
  refine (proj1 (unreadable_dates Examples.Dash.parseMillis Examples.Dash.runningClock
            [Examples.Dash.release "r-odd" "garbled" "garbled"] []
            (Examples.Dash.release "r-odd" "garbled" "garbled")) _).
  reflexivity.
Defined.


(** X18. Which screen follows a fetch that found the profile: with a
    student row, the lists unless the first name is 'Usuário'; without a
    student row, the lists are empty and the "no student record" message
    shows only when the profile has no first name or the name 'Usuário',
    so a user with a first name and no student row sees an empty list
    screen. *)
Theorem screen_after_fetch (w : FetchWorld) (st : State) (au : AppUserRow) :
  supabase w = true ->
  is_Some (sessionUserId w) ->
  appUserReply w = Data (Some au) ->
  releasesReply w <> Rejected ->
  resultsReply w <> Rejected ->
  ((exists sid, studentReply w = Data (Some sid)) ->
   (screen (fetchData w st) = NoStudentRecord <-> au_first_name au = Some "Usuário")
   /\ (screen (fetchData w st) <> NoStudentRecord -> screen (fetchData w st) = TestLists))
  /\ (studentReply w = Data None ->
      releases (fetchData w st) = [] /\ results (fetchData w st) = []
      /\ (screen (fetchData w st) = TestLists <->
          exists n, au_first_name au = Some n /\ n <> "" /\ n <> "Usuário")).
Proof.
  intros Hs [uid Hu] Ha Hrel Hres. unfold fetchData. rewrite Hs, Hu, Ha. cbn [negb].
  split.
  - intros [sid ->].
    assert (forall st' rl rs, screen (setLoading false
              (setResults rs
                 (setReleases rl
                    (setStudentName (JS.or_string (au_first_name au) "Student") st'))))
            = if bool_decide (au_first_name au = Some "Usuário") then NoStudentRecord
              else TestLists) as Hscreen.
    { intros st' rl rs. unfold screen. cbn [loading studentName setLoading setResults setReleases
                                       setStudentName].
      destruct (au_first_name au) as [n|]; cbn [JS.or_string].
      - repeat case_bool_decide; subst; cbn; try congruence.
      - repeat case_bool_decide; cbn; congruence. }
    destruct (releasesReply w) as [rel| |]; try congruence;
      destruct (resultsReply w) as [res| |]; try congruence;
      rewrite Hscreen;
      case_bool_decide; split; try split; try congruence; try discriminate; auto.
  - intros ->. cbn [releases results setLoading setStudentName setResults setReleases].
    split; [reflexivity|]. split; [reflexivity|].
    unfold screen. cbn [loading studentName setLoading setResults setReleases setStudentName].
    destruct (au_first_name au) as [n|]; cbn [JS.or_string].
    + repeat case_bool_decide; subst; cbn; split; try discriminate; try congruence; eauto.
      all: try (intros (n' & [= <-] & ? & ?); congruence).
    + repeat case_bool_decide; cbn; split; try discriminate; try congruence.
      all: try (intros (n' & [=] & _)).
Qed.

Lemma screen_after_fetch_witness :
  screen (fetchData visitorWorld blank) = TestLists
  /\ releases (fetchData visitorWorld blank) = [].
Proof.
  destruct (proj2 (screen_after_fetch visitorWorld blank
                     {| au_id := "au-2"; au_first_name := Some "Rui" |}
                     eq_refl (ex_intro _ "uid-2" eq_refl) eq_refl
                     ltac:(discriminate) ltac:(discriminate)) eq_refl)
    as (Hrel & _ & Hscreen).
  split; [|exact Hrel].
  apply Hscreen. exists "Rui". repeat split; discriminate.
Defined.

Lemma getTimeUntil_null_witness :
  getTimeUntil Examples.Dash.parseMillis 3000 "garbled" = Some "NaNm".
Proof.
  refine (proj2 (getTimeUntil_null Examples.Dash.parseMillis 3000 "garbled") _).
  reflexivity.
Defined.


(** Three seconds ahead: less than a minute is left, shown as "0m". *)
Example getTimeUntil_under_a_minute :
  getTimeUntil Examples.Dash.parseMillis 1000 "4000" = Some "0m".
Proof. vm_compute. reflexivity. Qed.

End DashboardDataFacts.

(** ** The application shell *)

Module ShellFacts.
Import App Shell ShellSpec.

(** X19. fetchRole touches only the role and the profile flag. The role
    it leaves is never empty when it was not empty before; the profile
    flag never goes back to false and is set exactly when a row was
    found; running it again on the same answers changes nothing more. *)
Theorem fetchRole_effect (hasClient : bool) (q : RoleQueries) (st : State) :
  let st' := fetchRoleWith hasClient q st in
  session st' = session st
  /\ authLoading st' = authLoading st
  /\ loadingMessage st' = loadingMessage st
  /\ loginProcessingRef st' = loginProcessingRef st
  /\ (userRole st <> "" -> userRole st' <> "")
  /\ (profileResolvedRef st' = true <->
      profileResolvedRef st = true
      \/ (hasClient = true /\ exists rule, profileOf q = ProfileRow rule))
  /\ fetchRoleWith hasClient q st' = st'.
Proof.
  cbn zeta. unfold fetchRoleWith, fetchRole.
  destruct hasClient; [destruct (profileOf q) as [|rule|]|];
    unfold setProfileResolved, setUserRole;
    cbn [session userRole authLoading loadingMessage loginProcessingRef profileResolvedRef].
  - repeat split; try tauto.
    intros [H|[_ [r Hr]]]; [exact H|discriminate].
  - repeat split; eauto.
    intros _. destruct rule as [r|]; cbn; [|discriminate].
    case_bool_decide; [discriminate|assumption].
  - repeat split; try tauto.
    intros [H|[_ [r Hr]]]; [exact H|discriminate].
  - repeat split; try tauto; try discriminate.
    intros [H|[H _]]; [exact H|discriminate].
Qed.

Lemma fetchRole_effect_witness :
  userRole (fetchRoleWith true professorQueries Examples.Login.loggedOut) <> "".
Proof.
  refine (proj1 (proj2 (proj2 (proj2 (proj2 (fetchRole_effect true professorQueries
            Examples.Login.loggedOut))))) _).
  discriminate.
Defined.

(** The polling loop hands back what the three answers say, and leaves
    the component state alone. *)
Lemma pollSession_polled (w : World) (n : nat) (m : Machine) :
  exists m',
    app m' = app m
    /\ pollSession w n m
       = (match polledFrom w (calls m) n with
          | Found s u => JS.Returned (Some s)
          | NotFound => JS.Returned None
          | Threw => JS.Thrown
          end, m').
Proof.
  revert m. induction n as [|n IH]; intros m; cbn [pollSession polledFrom].
  - exists m. split; reflexivity.
  - unfold mbind, Proc_bind, callGetSession.
    destruct (getSession w (calls m)) as [[s|]|].
    + unfold sessionUser. cbn [mbind option_bind].
      destruct (s_user s) as [u|].
      * eexists. split; [|reflexivity]. reflexivity.
      * unfold perform. cbn [app calls effects].
        match goal with
        | |- context [pollSession w n ?m0] => destruct (IH m0) as (m' & Happ & Hrun)
        end.
        exists m'. split; [exact Happ|]. rewrite Hrun. reflexivity.
    + unfold sessionUser. cbn [mbind option_bind]. unfold perform. cbn [app calls effects].
      match goal with
      | |- context [pollSession w n ?m0] => destruct (IH m0) as (m' & Happ & Hrun)
      end.
      exists m'. split; [exact Happ|]. rewrite Hrun. reflexivity.
    + eexists. split; [|reflexivity]. reflexivity.
Qed.

Lemma handleLoginSuccess_fields (w : World) (st : State) :
  loginProcessingRef st = false ->
  client w = true ->
  let st' := fst (handleLoginSuccess w st) in
  match polled w with
  | Found s u =>
      session st' = Some s
      /\ userRole st' = (if settledInTime w then userRole (fetchRole (profile w) st)
                         else userRole st)
      /\ profileResolvedRef st' = (if settledInTime w
                                   then profileResolvedRef (fetchRole (profile w) st)
                                   else profileResolvedRef st)
  | NotFound | Threw =>
      session st' = session st
      /\ userRole st' = userRole st
      /\ profileResolvedRef st' = profileResolvedRef st
  end.
Proof.
  intros Hfree Hclient. cbn zeta.
  unfold handleLoginSuccess, handleLoginSuccess_proc. cbn [app]. rewrite Hfree, Hclient.
  unfold try_catch, resolveProfile, finish, perform, update, mbind, mret, Proc_bind, Proc_ret.
  cbn [app calls effects].
  match goal with
  | |- context [pollSession w 3 ?m0] => destruct (pollSession_polled w 3 m0) as (m' & Happ & Hrun)
  end.
  rewrite Hrun. cbn [calls] in *. fold (polled w). cbn [app] in Happ.
  destruct (polled w) as [s u| |] eqn:Hp.
  - assert (s_user s = Some u) as Hu.
    { unfold polled in Hp. clear -Hp.
      assert (forall k n, polledFrom w k n = Found s u -> s_user s = Some u) as Hgen.
      { intros k n. revert k. induction n as [|n IH]; intros k; cbn [polledFrom]; [discriminate|].
        destruct (getSession w k) as [[s0|]|]; try discriminate; try apply IH.
        destruct (s_user s0) eqn:Hs0; [intros [= <- <-]; exact Hs0 | apply IH]. }
      exact (Hgen _ _ Hp). }
    unfold sessionUser. cbn [mbind option_bind]. rewrite Hu.
    unfold settledInTime, fetchRole.
    destruct (settles w); destruct (profile w) as [|rule|]; cbn; rewrite ?Happ; cbn; auto.
  - cbn. rewrite Happ. cbn. auto.
  - cbn. rewrite Happ. cbn. auto.
Qed.

(** X20. What a call of handleLoginSuccess that passes the guard, with a
    client, leaves behind. When one of the three polls gives a session
    with a user, that session is stored, and the role and the profile
    flag are those of the role fetch if it settled before the call
    returned, and untouched otherwise. When no poll does, or one is
    rejected, session, role and profile flag stay as they were. *)
Theorem handleLoginSuccess_outcome (w : World) (st : State) :
  loginProcessingRef st = false ->
  client w = true ->
  let st' := fst (handleLoginSuccess w st) in
  match polled w with
  | Found s u =>
      session st' = Some s
      /\ userRole st' = (if settledInTime w then userRole (fetchRole (profile w) st)
                         else userRole st)
      /\ profileResolvedRef st' = (if settledInTime w
                                   then profileResolvedRef (fetchRole (profile w) st)
                                   else profileResolvedRef st)
  | NotFound | Threw =>
      session st' = session st
      /\ userRole st' = userRole st
      /\ profileResolvedRef st' = profileResolvedRef st
  end.
Proof. exact (handleLoginSuccess_fields w st). Qed.

Lemma handleLoginSuccess_outcome_witness :
  userRole (fst (handleLoginSuccess professorWorld Examples.Login.loggedOut)) = "Professor"
  /\ userRole (fst (handleLoginSuccess slowRoleWorld Examples.Login.loggedOut)) = "Student".
Proof.
  split.
  - pose proof (handleLoginSuccess_outcome professorWorld Examples.Login.loggedOut
                  eq_refl eq_refl) as H.
    cbv zeta in H. change (polled professorWorld)
      with (Found Examples.Login.someSession {| u_id := "uid-1" |}) in H.
    destruct H as (_ & Hrole & _). rewrite Hrole. reflexivity.
  - pose proof (handleLoginSuccess_outcome slowRoleWorld Examples.Login.loggedOut
                  eq_refl eq_refl) as H.
    cbv zeta in H. change (polled slowRoleWorld)
      with (Found Examples.Login.someSession {| u_id := "uid-1" |}) in H.
    destruct H as (_ & Hrole & _). rewrite Hrole. reflexivity.
Defined.




(** The professor of the samples is stopped when the role arrives in
    time. *)
Example professor_is_denied :
  render (afterLogin professorWorld freshShell) = AccessDenied.
Proof. vm_compute. reflexivity. Qed.

(** X22. The auth listener does nothing at all when the component is
    not mounted, on TOKEN_REFRESHED, on an event it has no branch for,
    and on SIGNED_IN while an earlier sign-in is being processed; a
    SIGNED_IN that carries no user leaves the state as it found it. *)
Theorem auth_events_without_effect (w : EventWorld) (event : AuthEvent) (s : ShellState) :
  mounted w = false
  \/ event = TOKEN_REFRESHED
  \/ event = OTHER_EVENT
  \/ (event = SIGNED_IN
      /\ (signInProcessingRef s = true \/ sessionUser (eventSession w) = None)) ->
  onAuthStateChange w event s = (s, []).
Proof.
  unfold onAuthStateChange.
  intros [Hm|[->|[->|[-> Hin]]]].
  - now rewrite Hm.
  - now destruct (mounted w).
  - now destruct (mounted w).
  - destruct (mounted w); cbn [negb]; [|reflexivity].
    destruct (signInProcessingRef s) eqn:Hg; [reflexivity|].
    destruct Hin as [Hin|Hin]; [discriminate|]. rewrite Hin.
    destruct s as [c conn att g]. cbn in Hg. subst g. reflexivity.
Qed.

Lemma auth_events_without_effect_witness :
  onAuthStateChange plainEvent TOKEN_REFRESHED workingShell = (workingShell, []).
Proof.
  refine (auth_events_without_effect plainEvent TOKEN_REFRESHED workingShell _).
  right. left. reflexivity.
Defined.

(** X23. While mounted: SIGNED_OUT, and PASSWORD_RECOVERY without a
    session, leave a logged-out state whatever the state was, and a
    connected shell then shows the login screen; PASSWORD_RECOVERY with
    a session only calls signOut; a SIGNED_IN with a user, not already
    in process and still mounted when its timer fires, stores the
    session of the event and ends with authLoading false and its guard
    released. *)
Theorem auth_events_outcome (w : EventWorld) (s : ShellState) :
  mounted w = true ->
  (isLoggedOut (core (fst (onAuthStateChange w SIGNED_OUT s)))
   /\ profileResolvedRef (core (fst (onAuthStateChange w SIGNED_OUT s))) = false
   /\ (isConnected s = true -> render (fst (onAuthStateChange w SIGNED_OUT s)) = LoginScreen))
  /\ (recoverySession w = Resolves None ->
      isLoggedOut (core (fst (onAuthStateChange w PASSWORD_RECOVERY s)))
      /\ (isConnected s = true ->
          render (fst (onAuthStateChange w PASSWORD_RECOVERY s)) = LoginScreen))
  /\ (forall sess, recoverySession w = Resolves (Some sess) ->
        onAuthStateChange w PASSWORD_RECOVERY s = (s, [SignOut]))
  /\ (signInProcessingRef s = false ->
      is_Some (sessionUser (eventSession w)) ->
      mountedAtTimer w = true ->
      session (core (fst (onAuthStateChange w SIGNED_IN s))) = eventSession w
      /\ authLoading (core (fst (onAuthStateChange w SIGNED_IN s))) = false
      /\ signInProcessingRef (fst (onAuthStateChange w SIGNED_IN s)) = false).
Proof.
  intros Hm. unfold onAuthStateChange. rewrite Hm. cbn [negb].
  split; [|split; [|split]].
  - cbn. repeat split. intros Hc. unfold render. cbn. now rewrite Hc.
  - intros ->. cbn. repeat split. intros Hc. unfold render. cbn. now rewrite Hc.
  - intros sess ->. reflexivity.
  - intros Hg [u Hu] Ht. rewrite Hg, Hu, Ht.
    destruct (eventSettles w); destruct (eventProfile w); cbn; auto.
Qed.

Lemma auth_events_outcome_witness :
  render (fst (onAuthStateChange plainEvent SIGNED_OUT workingShell)) = LoginScreen.
Proof.
  refine (proj2 (proj2 (proj1 (auth_events_outcome plainEvent workingShell eq_refl))) eq_refl).
Defined.

(** X24. The periodic check leaves the state alone when it is not
    mounted, when the first getSession gives no session or is rejected,
    when the second one reports an error or is rejected, when the
    session has no expiry, and as long as now is less than 61 seconds
    past the expiry. From then on, and when the second getSession gives
    no session, a mounted shell is reset to the logged-out state. *)
Theorem sessionCheck_buffer (w : CheckWorld) (s : ShellState) :
  (checkMounted w = false \/ checkMountedLater w = false
   \/ firstHasSession w <> Some true
   \/ secondReply w = CheckError \/ secondReply w = CheckRejected
   \/ (exists cs, secondReply w = Checked (Some cs)
                  /\ (expires_at cs = None \/ expires_at cs = Some 0
                      \/ exists e, expires_at cs = Some e /\ nowMs w < (e + 61) * 1000)) ->
   sessionCheck w s = s)
  /\ (checkMounted w = true -> checkMountedLater w = true ->
      firstHasSession w = Some true ->
      (secondReply w = Checked None
       \/ exists cs e, secondReply w = Checked (Some cs)
                       /\ expires_at cs = Some e /\ e <> 0
                       /\ (e + 61) * 1000 <= nowMs w) ->
      isLoggedOut (core (sessionCheck w s))
      /\ profileResolvedRef (core (sessionCheck w s)) = false).
Proof.
  unfold sessionCheck. split.
  - intros H.
    destruct (checkMounted w); cbn [negb]; [|reflexivity].
    destruct (firstHasSession w) as [[|]|]; try reflexivity.
    destruct H as [H|[H|[H|[H|[H|H]]]]]; try discriminate; try congruence.
    + rewrite H. destruct (secondReply w) as [[cs|]| |]; try reflexivity.
      now rewrite andb_false_r.
    + now rewrite H.
    + now rewrite H.
    + destruct H as (cs & -> & Hexp). unfold expiredBeyondBuffer.
      destruct Hexp as [->|[->|(e & -> & Hlt)]]; try reflexivity.
      destruct (e =? 0); [reflexivity|].
      replace (e - nowMs w / 1000 <? -60) with false; [reflexivity|].
      symmetry. apply Z.ltb_ge.
      assert (nowMs w / 1000 < e + 61) by (apply Z.div_lt_upper_bound; lia). lia.
  - intros -> -> -> H. cbn [negb].
    destruct H as [->|(cs & e & -> & He & Hne & Hle)].
    + cbn. repeat split.
    + unfold expiredBeyondBuffer. rewrite He.
      replace (e =? 0) with false by (symmetry; now apply Z.eqb_neq).
      replace (e - nowMs w / 1000 <? -60) with true.
      * cbn. repeat split.
      * symmetry. apply Z.ltb_lt.
        assert (e + 61 <= nowMs w / 1000) by (apply Z.div_le_lower_bound; lia). lia.
Qed.

Lemma sessionCheck_buffer_witness :
  sessionCheck graceTick workingShell = workingShell.
Proof.
  refine (proj1 (sessionCheck_buffer graceTick workingShell) _).
  do 5 right. eexists. split; [reflexivity|].
  right. right. exists 1700000000. split; [reflexivity | reflexivity].
Defined.

(** X25. initAuth on a component that stays mounted ends with
    authLoading false on every path. When the 5000 ms timer wins, the
    user is treated as logged out (no session, role 'Student'). When
    getSession answers, its session is stored whether or not it reports
    an error, and the role is reset to 'Student' only if there is no
    session at all. A rejection changes nothing but authLoading. On a
    component that is no longer mounted nothing changes. *)
Theorem initAuth_outcome (w : InitWorld) (st : State) :
  (mountedAfterRace w = true -> mountedAtEnd w = true ->
   authLoading (initAuth w st) = false
   /\ (initReply w = TimerFirst ->
       session (initAuth w st) = None /\ userRole (initAuth w st) = "Student")
   /\ (forall sess err, initReply w = SessionFirst sess err ->
         session (initAuth w st) = sess
         /\ (sess = None -> userRole (initAuth w st) = "Student")
         /\ (sessionUser sess = None -> sess <> None ->
             userRole (initAuth w st) = userRole st))
   /\ (initReply w = InitRejected -> initAuth w st = setAuthLoading false st))
  /\ (mountedAfterRace w = false -> mountedAtEnd w = false -> initAuth w st = st).
Proof.
  unfold initAuth. split.
  - intros -> ->. split; [|split; [|split]].
    + destruct (initReply w) as [sess err| |]; reflexivity.
    + intros ->. split; reflexivity.
    + intros sess err ->. split; [|split].
      * destruct (sessionUser sess); [|destruct (JS.not_nullish sess); reflexivity].
        unfold fetchRole. destruct (initProfile w); reflexivity.
      * intros ->. reflexivity.
      * intros -> Hne. destruct sess as [x|]; [|congruence].
        cbn [JS.not_nullish]. rewrite andb_true_r. destruct err; reflexivity.
    + intros ->. reflexivity.
  - intros -> ->. destruct (initReply w) as [sess err| |]; try reflexivity.
    now rewrite andb_false_r.
Qed.

Lemma initAuth_outcome_witness :
  session (initAuth timedOutInit (core workingShell)) = None
  /\ userRole (initAuth timedOutInit (core workingShell)) = "Student".
Proof.
  refine (proj1 (proj2 (proj1 (initAuth_outcome timedOutInit (core workingShell))
                          eq_refl eq_refl)) eq_refl).
Defined.

(** X26. The second look at the role runs at most once: applying the
    effect again to its own result changes nothing. For a signed-in
    'Student' whose profile has not been resolved, it is what brings up
    the profile-error screen: before it the student layout is shown,
    after it the error screen, when the queries find no row or fail. *)
Theorem roleRecheck_once (hasClient : bool) (q : RoleQueries) (s : ShellState) :
  roleRecheck hasClient q (roleRecheck hasClient q s) = roleRecheck hasClient q s
  /\ (isConnected s = true ->
      authLoading (core s) = false ->
      userRole (core s) = "Student" ->
      roleCheckAttempted s = false ->
      profileResolvedRef (core s) = false ->
      (exists u, sessionUser (session (core s)) = Some u /\ u_id u <> "") ->
      hasClient = true ->
      profileOf q = NoProfile \/ profileOf q = QueryThrows ->
      render s = StudentLayout
      /\ render (roleRecheck hasClient q s) = ProfileError).
Proof.
  split.
  - unfold roleRecheck at 2 3.
    destruct (JS.not_nullish (session (core s)) && negb (authLoading (core s))
              && bool_decide (userRole (core s) = "Student")
              && negb (roleCheckAttempted s)) eqn:Hcond.
    + assert (forall s', roleCheckAttempted s' = true -> roleRecheck hasClient q s' = s') as Hdone.
      { intros s' Hs'. unfold roleRecheck. rewrite Hs'. cbn [negb]. now rewrite andb_false_r. }
      destruct (sessionUser (session (core s))) as [u|]; [|now apply Hdone].
      destruct (bool_decide (u_id u = "")); now apply Hdone.
    + unfold roleRecheck. now rewrite Hcond.
  - intros Hc Hl Hr Ha Hp (u & Hu & Hid) -> Hq.
    assert (JS.not_nullish (session (core s)) = true) as Hs.
    { unfold sessionUser in Hu. destruct (session (core s)); [reflexivity|discriminate]. }
    split.
    + unfold render. cbn zeta. rewrite Hc, Hl, Hs, Hr, Ha. reflexivity.
    + unfold roleRecheck. rewrite Hs, Hl, Hr, Ha, Hu.
      rewrite (bool_decide_eq_true_2 ("Student" = "Student")) by reflexivity.
      cbn [negb andb]. rewrite bool_decide_eq_false_2 by exact Hid.
      unfold fetchRoleWith, fetchRole, render, onCore, setRoleCheckAttempted.
      cbn [core isConnected roleCheckAttempted signInProcessingRef].
      destruct Hq as [-> | ->]; rewrite Hc, Hl, Hs, Hr, Hp; reflexivity.
Qed.

Lemma roleRecheck_once_witness :
  render uncheckedShell = StudentLayout
  /\ render (roleRecheck true failingQueries uncheckedShell) = ProfileError.
Proof.
  refine (proj2 (roleRecheck_once true failingQueries uncheckedShell)
            eq_refl eq_refl eq_refl eq_refl eq_refl _ eq_refl _).
  - exists {| u_id := "uid-1" |}. split; [reflexivity | discriminate].
  - left. reflexivity.
Defined.

End ShellFacts.

(** ** The student layout *)

Module LayoutFacts.
Import Dashboard Layout.

Lemma run_snoc (es : list Event) (e : Event) (st : State) :
  run (es ++ [e]) st = step e (run es st).
Proof. unfold run. now rewrite foldl_app. Qed.

Lemma step_keeps_exam (e : Event) (st : State) :
  fromButtons e ->
  (currentView st = exam -> is_Some (activeExam st)) ->
  currentView (step e st) = exam -> is_Some (activeExam (step e st)).
Proof.
  intros Hb Hinv. destruct e as [view c|r c| |]; cbn [step].
  - unfold handleNavigate.
    destruct (bool_decide (currentView st = exam) && negb c); [exact Hinv|].
    cbn [currentView activeExam]. cbn in Hb.
    destruct Hb as [-> | [-> | ->]]; cbn; discriminate.
  - unfold startExam. destruct c; [cbn; eauto | exact Hinv].
  - cbn. discriminate.
  - cbn. discriminate.
Qed.

(** X27. From the initial layout, after any sequence of clicks (the
    three navigation buttons with any answers to the confirm dialog,
    starts of tests, completions and exits), the view 'exam' always
    comes with an active release; so with a session the window then
    holds the exam room of exactly that release, and in every other
    case one of the three panels. *)
Theorem exam_view_has_release (es : list Event) (hasSession : bool) :
  Forall fromButtons es ->
  (currentView (run es initial) = exam ->
   exists r, activeExam (run es initial) = Some r
             /\ (hasSession = true ->
                 shown hasSession (run es initial) = ExamRoomOf (r_id r) (r_test_id r)))
  /\ (currentView (run es initial) <> exam ->
      shown hasSession (run es initial) <> NoPanel).
Proof.
  intros Hes.
  assert (currentView (run es initial) = exam -> is_Some (activeExam (run es initial)))
    as Hinv.
  { induction es as [|e es IH] using rev_ind; [discriminate|].
    rewrite run_snoc. apply Forall_app in Hes. destruct Hes as [Hes He].
    apply Forall_cons in He. destruct He as [He _].
    apply step_keeps_exam; [exact He | now apply IH]. }
  split.
  - intros Hexam. destruct (Hinv Hexam) as [r Hr]. exists r. split; [exact Hr|].
    intros ->. unfold shown. rewrite Hr, Hexam. reflexivity.
  - intros Hne. unfold shown.
    destruct (activeExam (run es initial)) as [r|];
      [rewrite bool_decide_eq_false_2 by exact Hne; cbn [andb]|];
      destruct (currentView (run es initial)); try discriminate; congruence.
Qed.

Lemma exam_view_has_release_witness :
  shown true (run [NavigateTo (student_view results) false;
                   StartExam Examples.Dash.current true;
                   NavigateTo (student_view dashboard) false] initial)
  = ExamRoomOf "r-now" "t1".
Proof.
  assert (Forall fromButtons [NavigateTo (student_view results) false;
                              StartExam Examples.Dash.current true;
                              NavigateTo (student_view dashboard) false]) as Hes.
  { constructor; [cbn; auto|]. constructor; [exact I|]. constructor; [cbn; auto|].
    constructor. }
  destruct (proj1 (exam_view_has_release _ true Hes) eq_refl) as (r & Hr & Hshown).
  rewrite (Hshown eq_refl). injection Hr as <-. reflexivity.
Defined.

(** X28. The exam room is entered only by starting a test and
    confirming, and left only by completing, exiting, or navigating and
    confirming: a declined confirm dialog leaves the layout exactly as
    it was. *)
Theorem exam_entered_and_left_on_purpose (e : Event) (st : State) :
  (currentView st <> exam -> currentView (step e st) = exam ->
   exists r, e = StartExam r true /\ activeExam (step e st) = Some r)
  /\ (currentView st = exam -> currentView (step e st) <> exam ->
      e = ExamComplete \/ e = ExamExit \/ exists view, e = NavigateTo view true)
  /\ (forall view, currentView st = exam -> step (NavigateTo view false) st = st)
  /\ (forall r, step (StartExam r false) st = st).
Proof.
  split; [|split; [|split]].
  - intros Hne Hexam. destruct e as [view c|r c| |]; cbn [step] in *.
    + unfold handleNavigate in Hexam.
      rewrite (bool_decide_eq_false_2 _ Hne) in Hexam. cbn [andb currentView] in Hexam.
      destruct view as [[| | |]|]; congruence.
    + unfold startExam in *. destruct c; [eauto|congruence].
    + discriminate.
    + discriminate.
  - intros Hexam Hne. destruct e as [view c|r c| |]; cbn [step] in *; auto.
    + destruct c; [eauto|].
      unfold handleNavigate in Hne.
      rewrite (bool_decide_eq_true_2 _ Hexam) in Hne. cbn in Hne. congruence.
    + unfold startExam in Hne. destruct c; cbn in Hne; congruence.
  - intros view Hexam. cbn [step]. unfold handleNavigate.
    now rewrite (bool_decide_eq_true_2 _ Hexam).
  - intros r. reflexivity.
Qed.

Lemma exam_entered_and_left_on_purpose_witness :
  step (NavigateTo (student_view dashboard) false)
       (step (StartExam Examples.Dash.current true) initial)
  = step (StartExam Examples.Dash.current true) initial.
Proof.
  refine (proj1 (proj2 (proj2 (exam_entered_and_left_on_purpose ExamExit
            (step (StartExam Examples.Dash.current true) initial))))
            (student_view dashboard) eq_refl).
Defined.

End LayoutFacts.
